(** * StudyMate front end and gateway contract: a shallow embedding

    The development follows the TypeScript sources of the DSA chatbot
    widget ([DSAChatbot], with [handleSendMessage] and
    [getFallbackResponse]) and of the CSE course form ([CSECourseForm],
    with [handleSubjectSelect], [handleCustomTopicChange] and
    [handleSubmit]).  The gateway core (registry, credential resolver,
    circuit policy) lives in the backend, outside the files at hand; it is
    modelled from its written contract in [Module Gateway]. *)

From Stdlib Require Import NArith ZArith Ascii String List Bool Lia SpecFloat.
From stdpp Require Import base strings pretty gmap.
Import ListNotations.

Local Open Scope N_scope.

(** ** The JavaScript string primitives the components call *)

Module JS.

(** A JavaScript string is a sequence of UTF-16 code units. *)
Definition jsstring : Type := list N.

(** Literals are written as they stand in the UTF-8 source text and
    decoded to code units.  Every literal of the two components lies in
    the Basic Multilingual Plane, so sequences of one, two and three
    bytes suffice. *)
Fixpoint utf16 (s : string) : jsstring :=
  match s with
  | EmptyString => []
  | String a s1 =>
      let b0 := N_of_ascii a in
      if b0 <? 128 then b0 :: utf16 s1
      else if b0 <? 224 then
        match s1 with
        | String b s2 => (b0 mod 32 * 64 + N_of_ascii b mod 64) :: utf16 s2
        | EmptyString => [65533]
        end
      else
        match s1 with
        | String b (String c s3) =>
            (b0 mod 16 * 4096 + N_of_ascii b mod 64 * 64 + N_of_ascii c mod 64)
              :: utf16 s3
        | _ => [65533]
        end
  end.

(** [String.prototype.toLowerCase], one code unit at a time.  The Latin
    capitals go to their small letters.  Two further characters have a
    lower case that contains a Latin letter: U+0130 (capital I with dot
    above, to [i] followed by U+0307) and U+212A (Kelvin sign, to [k]).
    Every other case pair of the Unicode tables maps a code unit above
    U+007F to code units above U+007F; such pairs cannot create or
    remove an occurrence of one of the Latin keywords the components
    search for, and they are left as they are.  The function is thus the
    lower-casing of JavaScript only as far as the Latin code units go:
    the two agree in length and at every code unit below U+0080, and may
    differ at the others (U+00C9 stays here and becomes U+00E9 there). *)
Definition lowerUnit (u : N) : list N :=
  if (65 <=? u) && (u <=? 90) then [u + 32]
  else if u =? 304 then [105; 775]
  else if u =? 8490 then [107]
  else [u].

Definition toLowerCase (s : jsstring) : jsstring := flat_map lowerUnit s.

(** [s.startsWith(sub)] and [s.includes(sub)]: occurrence of [sub] as a
    contiguous run of code units. *)
Fixpoint startsWith (s sub : jsstring) : bool :=
  match sub, s with
  | [], _ => true
  | _ :: _, [] => false
  | c :: sub', d :: s' => (c =? d) && startsWith s' sub'
  end.

Fixpoint includes (s sub : jsstring) : bool :=
  startsWith s sub
  || match s with
     | [] => false
     | _ :: s' => includes s' sub
     end.

(** WhiteSpace and LineTerminator of ECMAScript: what [trim] strips. *)
Definition isWhiteSpace (u : N) : bool :=
  (u =? 9) || (u =? 10) || (u =? 11) || (u =? 12) || (u =? 13)
  || (u =? 32) || (u =? 160) || (u =? 5760)
  || ((8192 <=? u) && (u <=? 8202))
  || (u =? 8232) || (u =? 8233) || (u =? 8239) || (u =? 8287)
  || (u =? 12288) || (u =? 65279).

Fixpoint trimStart (s : jsstring) : jsstring :=
  match s with
  | [] => []
  | u :: s' => if isWhiteSpace u then trimStart s' else s
  end.

Definition trimEnd (s : jsstring) : jsstring := rev (trimStart (rev s)).

Definition trim (s : jsstring) : jsstring := trimEnd (trimStart s).

(** Truthiness of a string: the empty string is the only falsy one. *)
Definition truthy (s : jsstring) : bool :=
  match s with
  | [] => false
  | _ :: _ => true
  end.

(** [a || b] on strings. *)
Definition orElse (a b : jsstring) : jsstring := if truthy a then a else b.

(** [Number.prototype.toString] on a non-negative integer: decimal
    digits. *)
Definition toString (n : N) : jsstring := utf16 (pretty n).

End JS.

Import JS.

(** ** The DSA chatbot widget *)

Module Chatbot.

(** *** Canned answers of [getFallbackResponse] *)

Definition arrayText : jsstring := utf16
"Arrays are fundamental data structures! For sorting:

• **Bubble Sort**: O(n²) - Good for learning
• **Quick Sort**: O(n log n) average - Very efficient
• **Merge Sort**: O(n log n) - Stable, consistent

Key tip: Practice with different array problems to master pointer techniques!".

Definition treeText : jsstring := utf16
"Binary Trees are crucial for DSA! Key concepts:

• **Traversals**: Inorder, Preorder, Postorder
• **BST Properties**: Left < Root < Right
• **Common Problems**: Height, Diameter, LCA

Start with basic traversals and build up to complex tree problems!".

Definition graphText : jsstring := utf16
"Graph algorithms are powerful! Essential ones:

• **BFS**: Level-order, shortest path in unweighted graphs
• **DFS**: Deep exploration, cycle detection
• **Dijkstra**: Shortest path with weights
• **Union-Find**: Connected components

Visualize the graph first, then choose the right traversal method!".

Definition dpText : jsstring := utf16
"Dynamic Programming is all about optimization! Approach:

1. **Identify**: Overlapping subproblems
2. **Define**: State and recurrence relation
3. **Implement**: Top-down (memoization) or bottom-up

Start with Fibonacci, Climbing Stairs, then move to 2D DP problems!".

Definition complexityText : jsstring := utf16
"Time Complexity Analysis:

• **O(1)**: Constant - Hash operations
• **O(log n)**: Logarithmic - Binary search
• **O(n)**: Linear - Single loop
• **O(n log n)**: Efficient sorting
• **O(n²)**: Nested loops

Always analyze your solution and think about optimizations!".

Definition defaultText : jsstring := utf16
"Great question! DSA is all about practice and understanding patterns. Here are some general tips:

• Start with easy problems and build confidence
• Focus on understanding patterns rather than memorizing
• Practice coding by hand sometimes
• Explain your approach before coding

What specific DSA topic would you like to explore?".

(** *** [getFallbackResponse] *)

Definition getFallbackResponse (query : jsstring) : jsstring :=
  let lowerQuery := toLowerCase query in
  if includes lowerQuery (utf16 "array") || includes lowerQuery (utf16 "sorting")
  then arrayText
  else if includes lowerQuery (utf16 "tree") || includes lowerQuery (utf16 "binary")
  then treeText
  else if includes lowerQuery (utf16 "graph") || includes lowerQuery (utf16 "bfs")
          || includes lowerQuery (utf16 "dfs")
  then graphText
  else if includes lowerQuery (utf16 "dynamic") || includes lowerQuery (utf16 "dp")
  then dpText
  else if includes lowerQuery (utf16 "time") || includes lowerQuery (utf16 "complexity")
  then complexityText
  else defaultText.

(** *** Values

    What [JSON.parse] can yield: [null], a boolean, a number (an IEEE
    double), a string, an array, or an object with its members in the
    order of the text.  These are also the values the [content] of a
    message holds at run time: the interface declares it a string, and
    the handler stores what it is given. *)
#[warnings="-register-all"]
Inductive Json : Type :=
| JNull
| JBool (b : bool)
| JNumber (x : spec_float)
| JString (s : jsstring)
| JArray (items : list Json)
| JObject (members : list (jsstring * Json)).

(** Truthiness: [null], [false], zero, [NaN] and the empty string are
    falsy, everything else, arrays and objects included, is truthy. *)
Definition truthyJson (v : Json) : bool :=
  match v with
  | JNull => false
  | JBool b => b
  | JNumber (S754_zero _) => false
  | JNumber S754_nan => false
  | JNumber _ => true
  | JString s => truthy s
  | JArray _ => true
  | JObject _ => true
  end.

(** *** Conversation state *)

Record Message : Type := {
  id : jsstring;
  content : Json;
  isBot : bool;
  timestamp : N
}.

(** The three [useState] cells of the component. *)
Record ChatState : Type := {
  messages : list Message;
  inputValue : jsstring;
  isLoading : bool
}.

Definition greetingText : jsstring := utf16
"Hi! I'm your DSA study assistant. I can help you with:

• Algorithm explanations
• Problem-solving strategies
• Time & space complexity analysis
• Code review and optimization
• Study recommendations

What would you like to learn today?".

Definition initialState (mountedAt : N) : ChatState :=
  {| messages := [ {| id := utf16 "1"; content := JString greetingText;
                      isBot := true; timestamp := mountedAt |} ];
     inputValue := [];
     isLoading := false |}.

(** *** What the handler does to the outside *)

(** The request handed to [fetch]: URL, method, content type and the two
    fields of the JSON body. *)
Record ChatRequest : Type := {
  url : jsstring;
  method : jsstring;
  contentType : jsstring;
  message : jsstring;
  context : jsstring
}.

(** Values that can be thrown inside the [try] block. *)
Inductive JsError : Type :=
| FetchFailed                  (* [fetch] rejected: no HTTP response *)
| ErrorObject (msg : jsstring) (* [new Error(msg)] *)
| SyntaxError                  (* [response.json()] rejected *)
| TypeError.                   (* property read on [null] *)

Inductive Effect : Type :=
| NetworkCall (r : ChatRequest)
| ConsoleError (label : jsstring) (e : JsError)
| Toast (title description variant : jsstring).

(** What the chat service does with one request.  Either [fetch]
    rejects, or it resolves to a response with its [ok] flag and a body;
    reading the body as JSON rejects or yields a value. *)
Inductive Body : Type :=
| BodyRejects
| BodyParses (result : Json).

Inductive Upstream : Type :=
| Rejects
| Resolves (ok : bool) (body : Body).

(** [Date.now()] and [new Date()] as read while a message is built. *)
Record Clock : Type := { now : N; date : N }.

Record Env : Type := {
  sentAt : Clock;
  upstream : Upstream;
  repliedAt : Clock
}.

(** *** Completions, state and effects *)

Inductive Completion (A : Type) : Type :=
| Normal (a : A)
| Throw (e : JsError).
Arguments Normal {A} a.
Arguments Throw {A} e.

Record World : Type := { chat : ChatState; log : list Effect }.

Definition M (A : Type) : Type := World -> Completion A * World.

#[export] Instance M_ret : MRet M := fun A a w => (Normal a, w).

#[export] Instance M_bind : MBind M := fun A B f m w =>
  match m w with
  | (Normal a, w') => f a w'
  | (Throw e, w') => (Throw e, w')
  end.

Definition throw {A : Type} (e : JsError) : M A := fun w => (Throw e, w).

(** [try { body } catch (error) { handler error } finally { fin }] *)
Definition tryCatchFinally {A : Type}
    (body : M A) (handler : JsError -> M A) (fin : M unit) : M A :=
  fun w =>
    let (c, w1) :=
      match body w with
      | (Throw e, w') => handler e w'
      | (Normal a, w') => (Normal a, w')
      end in
    match fin w1 with
    | (Normal _, w2) => (c, w2)
    | (Throw e, w2) => (Throw e, w2)
    end.

Definition emit (e : Effect) : M unit := fun w =>
  (Normal tt, {| chat := chat w; log := log w ++ [e] |}).

Definition setMessages (f : list Message -> list Message) : M unit := fun w =>
  (Normal tt,
   {| chat := {| messages := f (messages (chat w));
                 inputValue := inputValue (chat w);
                 isLoading := isLoading (chat w) |};
      log := log w |}).

Definition setInputValue (v : jsstring) : M unit := fun w =>
  (Normal tt,
   {| chat := {| messages := messages (chat w);
                 inputValue := v;
                 isLoading := isLoading (chat w) |};
      log := log w |}).

Definition setIsLoading (b : bool) : M unit := fun w =>
  (Normal tt,
   {| chat := {| messages := messages (chat w);
                 inputValue := inputValue (chat w);
                 isLoading := b |};
      log := log w |}).

Definition fetch (up : Upstream) (r : ChatRequest) : M (bool * Body) :=
  emit (NetworkCall r);;
  match up with
  | Rejects => throw FetchFailed
  | Resolves ok body => mret (ok, body)
  end.

(** [await response.json()], then [result.response]. *)
Definition json (b : Body) : M Json :=
  match b with
  | BodyRejects => throw SyntaxError
  | BodyParses result => mret result
  end.

(** The member [name] of a parsed object: of several members with the
    same name the last one counts; [None] is [undefined]. *)
Definition member (name : jsstring) (members : list (jsstring * Json)) : option Json :=
  match find (fun kv => bool_decide (fst kv = name)) (rev members) with
  | Some kv => Some (snd kv)
  | None => None
  end.

(** [result.response]: a [TypeError] on [null]; the member of an object;
    [undefined] on a boolean, a number, a string or an array, none of
    which has a property of that name. *)
Definition responseOf (result : Json) : M (option Json) :=
  match result with
  | JNull => throw TypeError
  | JObject members => mret (member (utf16 "response") members)
  | _ => mret None
  end.

(** [v || d] where [v] is any value or [undefined] and [d] a string. *)
Definition orDefault (v : option Json) (d : jsstring) : Json :=
  match v with
  | Some x => if truthyJson x then x else JString d
  | None => JString d
  end.

Definition rephraseText : jsstring := utf16
  "I'm having trouble understanding that. Could you rephrase your question about DSA concepts?".

(** *** [handleSendMessage]

    The closure reads [inputValue] and [isLoading] of the render it
    belongs to; the setters that run meanwhile do not change what it
    sees. *)
Definition sendMessage (env : Env) (inputValue : jsstring) (isLoading : bool)
    : M unit :=
  if negb (truthy (trim inputValue)) || isLoading then mret tt
  else
    let userMessage :=
      {| id := toString (now (sentAt env));
         content := JString inputValue;
         isBot := false;
         timestamp := date (sentAt env) |} in
    setMessages (fun prev => prev ++ [userMessage]);;
    setInputValue [];;
    setIsLoading true;;
    tryCatchFinally
      (response ← fetch (upstream env)
         {| url := utf16 "http://localhost:8002/chat";
            method := utf16 "POST";
            contentType := utf16 "application/json";
            message := inputValue;
            context := utf16 "dsa_learning" |};
       (if negb (fst response)
        then throw (ErrorObject (utf16 "Failed to get response from DSA assistant"))
        else mret tt);;
       result ← json (snd response);
       reply ← responseOf result;
       let botMessage :=
         {| id := toString (now (repliedAt env) + 1);
            content := orDefault reply rephraseText;
            isBot := true;
            timestamp := date (repliedAt env) |} in
       setMessages (fun prev => prev ++ [botMessage]))
      (fun error =>
         emit (ConsoleError (utf16 "DSA Chatbot error:") error);;
         let fallbackResponse := getFallbackResponse inputValue in
         let botMessage :=
           {| id := toString (now (repliedAt env) + 1);
              content := JString fallbackResponse;
              isBot := true;
              timestamp := date (repliedAt env) |} in
         setMessages (fun prev => prev ++ [botMessage]);;
         emit (Toast (utf16 "Connection Issue")
                     (utf16 "Using offline responses. Backend service may be unavailable.")
                     (utf16 "destructive")))
      (setIsLoading false).

Definition handleSendMessage (env : Env) : M unit := fun w =>
  sendMessage env (inputValue (chat w)) (isLoading (chat w)) w.

End Chatbot.

Import Chatbot.

(** ** The CSE course form *)

Module CourseForm.

(** The [useState] cells of [CSECourseForm].  [purpose] and [difficulty]
    hold string literals of [CourseType], which the form only stores
    and passes on. *)
Record FormState : Type := {
  selectedSubject : jsstring;
  customTopic : jsstring;
  purpose : jsstring;
  difficulty : jsstring;
  customPrompt : jsstring;
  includeExamPrep : bool;
  showNonCSEWarning : bool
}.

Definition initialForm : FormState :=
  {| selectedSubject := [];
     customTopic := [];
     purpose := utf16 "exam_preparation";
     difficulty := utf16 "intermediate";
     customPrompt := [];
     includeExamPrep := true;
     showNonCSEWarning := false |}.

Definition nonCSEKeywords : list jsstring :=
  map utf16
    [ "biology"; "chemistry"; "physics"; "history"; "geography";
      "literature"; "arts"; "music"; "medical"; "civil"; "mechanical";
      "electrical" ]%string.

(** [nonCSEKeywords.some(keyword => value.toLowerCase().includes(keyword))] *)
Definition isNonCSE (value : jsstring) : bool :=
  existsb (fun keyword => includes (toLowerCase value) keyword) nonCSEKeywords.

Definition handleSubjectSelect (subject : jsstring) (st : FormState) : FormState :=
  {| selectedSubject := subject;
     customTopic := [];
     purpose := purpose st;
     difficulty := difficulty st;
     customPrompt := customPrompt st;
     includeExamPrep := includeExamPrep st;
     showNonCSEWarning := false |}.

Definition handleCustomTopicChange (value : jsstring) (st : FormState) : FormState :=
  {| selectedSubject := [];
     customTopic := value;
     purpose := purpose st;
     difficulty := difficulty st;
     customPrompt := customPrompt st;
     includeExamPrep := includeExamPrep st;
     showNonCSEWarning := isNonCSE value |}.

Definition setPurpose (p : jsstring) (st : FormState) : FormState :=
  {| selectedSubject := selectedSubject st;
     customTopic := customTopic st;
     purpose := p;
     difficulty := difficulty st;
     customPrompt := customPrompt st;
     includeExamPrep := includeExamPrep st;
     showNonCSEWarning := showNonCSEWarning st |}.

Definition setDifficulty (d : jsstring) (st : FormState) : FormState :=
  {| selectedSubject := selectedSubject st;
     customTopic := customTopic st;
     purpose := purpose st;
     difficulty := d;
     customPrompt := customPrompt st;
     includeExamPrep := includeExamPrep st;
     showNonCSEWarning := showNonCSEWarning st |}.

Definition setCustomPrompt (v : jsstring) (st : FormState) : FormState :=
  {| selectedSubject := selectedSubject st;
     customTopic := customTopic st;
     purpose := purpose st;
     difficulty := difficulty st;
     customPrompt := v;
     includeExamPrep := includeExamPrep st;
     showNonCSEWarning := showNonCSEWarning st |}.

Definition setIncludeExamPrep (b : bool) (st : FormState) : FormState :=
  {| selectedSubject := selectedSubject st;
     customTopic := customTopic st;
     purpose := purpose st;
     difficulty := difficulty st;
     customPrompt := customPrompt st;
     includeExamPrep := b;
     showNonCSEWarning := showNonCSEWarning st |}.

(** What a handler does besides setting state. *)
Inductive FormEffect : Type :=
| PreventDefault
| OnSubmit (courseName purpose difficulty customPrompt : jsstring)
           (includeExamPrep : bool).

Definition handleSubmit (st : FormState) : FormState * list FormEffect :=
  let courseName := orElse (selectedSubject st) (customTopic st) in
  if negb (truthy (trim courseName)) then (st, [PreventDefault])
  else if showNonCSEWarning st then (st, [PreventDefault])
  else (st, [PreventDefault;
             OnSubmit courseName (purpose st) (difficulty st)
                      (customPrompt st) (includeExamPrep st)]).

Definition isFormValid (st : FormState) : bool :=
  (truthy (selectedSubject st) || truthy (trim (customTopic st)))
  && negb (showNonCSEWarning st).

(** The events the rendered form reacts to, and the handler each runs. *)
Inductive Event : Type :=
| SubjectClick (subject : jsstring)
| CustomTopicInput (value : jsstring)
| PurposeClick (p : jsstring)
| DifficultyClick (d : jsstring)
| ExamPrepToggle (checked : bool)
| CustomPromptInput (value : jsstring)
| FormSubmit.

Definition dispatch (ev : Event) (st : FormState) : FormState * list FormEffect :=
  match ev with
  | SubjectClick subject => (handleSubjectSelect subject st, [])
  | CustomTopicInput value => (handleCustomTopicChange value st, [])
  | PurposeClick p => (setPurpose p st, [])
  | DifficultyClick d => (setDifficulty d st, [])
  | ExamPrepToggle b => (setIncludeExamPrep b st, [])
  | CustomPromptInput v => (setCustomPrompt v st, [])
  | FormSubmit => handleSubmit st
  end.

(** The states the mounted form can be in. *)
Inductive reachable : FormState -> Prop :=
| reachable_init : reachable initialForm
| reachable_step ev st : reachable st -> reachable (fst (dispatch ev st)).

(** Some call of [onSubmit] is among the effects. *)
Definition invokesOnSubmit (effs : list FormEffect) : bool :=
  existsb (fun e => match e with OnSubmit _ _ _ _ _ => true | PreventDefault => false end) effs.

End CourseForm.

(** ** The gateway core, from its written contract *)

Module Gateway.

(** Modelled from the spec: the descriptor of an upstream service (data
    model of the gateway, whose code is in the backend). *)
Record ServiceDescriptor : Type := {
  name : string;
  baseURL : string;
  healthPath : string;
  timeoutMs : N;
  maxRetries : nat
}.

(** Modelled from the spec: the two configuration errors of the registry
    and of the credential resolver. *)
Inductive GatewayError : Type :=
| UnknownServiceError
| MissingCredentialError.

(** Modelled from the spec: the Service Registry, whose code is in the
    backend.  The configuration maps a logical service name to its
    descriptor; [resolve] looks the name up and fails with
    [UnknownServiceError] when it is absent. *)
Definition resolve (registry : gmap string ServiceDescriptor) (svc : string)
    : GatewayError + ServiceDescriptor :=
  match registry !! svc with
  | Some d => inr d
  | None => inl UnknownServiceError
  end.

(** Modelled from the spec: the key configuration, one optional default
    key and the optional per-service override keys. *)
Record KeyConfig : Type := {
  defaultKey : option string;
  overrideKeys : gmap string string
}.

(** Modelled from the spec: a key that is present and non-empty. *)
Definition nonEmpty (k : string) : bool :=
  match k with
  | EmptyString => false
  | String _ _ => true
  end.

(** Modelled from the spec: the Credential Resolver, whose code is in the
    backend.  A service-specific key that exists and is non-empty is
    used; otherwise the default key; with neither, the resolver fails
    with [MissingCredentialError]. *)
Definition credentialFor (cfg : KeyConfig) (svc : string) : GatewayError + string :=
  match overrideKeys cfg !! svc with
  | Some k =>
      if nonEmpty k then inr k
      else match defaultKey cfg with
           | Some k0 => inr k0
           | None => inl MissingCredentialError
           end
  | None =>
      match defaultKey cfg with
      | Some k0 => inr k0
      | None => inl MissingCredentialError
      end
  end.

(** Modelled from the spec: the three states of a circuit. *)
Inductive Status : Type := CLOSED | OPEN | HALF_OPEN.

(** Modelled from the spec: the circuit of one service, with its failure
    count and the time it last opened (start of the cool-down). *)
Record Circuit : Type := {
  status : Status;
  consecutiveFailures : nat;
  openedAt : N
}.

(** Modelled from the spec: failure threshold and cool-down interval,
    both configurable. *)
Record Policy : Type := { threshold : nat; coolDown : N }.

(** Modelled from the spec: the [source] field of a response envelope. *)
Inductive Source : Type := LIVE | FALLBACK.

(** Modelled from the spec: what the policy decides for a call. *)
Inductive Decision : Type := PassThrough | ShortCircuit.

(** Modelled from the spec: the circuit of a service at startup. *)
Definition closedCircuit : Circuit :=
  {| status := CLOSED; consecutiveFailures := 0; openedAt := 0 |}.

(** Modelled from the spec: the Circuit Policy's decision before a call,
    whose code is in the backend.  CLOSED lets the call through.  OPEN
    short-circuits while the cool-down runs; once it has elapsed the
    next call goes through as the probe and the circuit is HALF_OPEN.
    While the probe is in flight further calls are short-circuited. *)
Definition permit (pol : Policy) (now : N) (c : Circuit) : Decision * Circuit :=
  match status c with
  | CLOSED => (PassThrough, c)
  | OPEN =>
      if now <? openedAt c + coolDown pol then (ShortCircuit, c)
      else (PassThrough,
            {| status := HALF_OPEN;
               consecutiveFailures := consecutiveFailures c;
               openedAt := openedAt c |})
  | HALF_OPEN => (ShortCircuit, c)
  end.

(** Modelled from the spec: the Circuit Policy's bookkeeping after a
    call that went through.  A success closes the circuit and clears the
    counter.  A failure counts; in CLOSED the circuit opens when the
    counter has reached the threshold, and a failed probe reopens it
    with the cool-down started afresh. *)
Definition report (pol : Policy) (now : N) (success : bool) (c : Circuit) : Circuit :=
  match status c, success with
  | OPEN, _ => c
  | _, true => {| status := CLOSED; consecutiveFailures := 0; openedAt := openedAt c |}
  | CLOSED, false =>
      let n := S (consecutiveFailures c) in
      if (threshold pol <=? n)%nat
      then {| status := OPEN; consecutiveFailures := n; openedAt := now |}
      else {| status := CLOSED; consecutiveFailures := n; openedAt := openedAt c |}
  | HALF_OPEN, false =>
      {| status := OPEN;
         consecutiveFailures := S (consecutiveFailures c);
         openedAt := now |}
  end.

(** Modelled from the spec: one guarded call.  [success] is what the
    upstream would answer; the third component counts the network
    attempts made. *)
Definition call (pol : Policy) (now : N) (success : bool) (c : Circuit)
    : Circuit * Source * nat :=
  match permit pol now c with
  | (ShortCircuit, c') => (c', FALLBACK, 0%nat)
  | (PassThrough, c') =>
      (report pol now success c', if success then LIVE else FALLBACK, 1%nat)
  end.

(** Modelled from the spec: the gateway process after startup, with the
    registry and key configuration read at startup and the circuits. *)
Record State : Type := {
  registry : gmap string ServiceDescriptor;
  keys : KeyConfig;
  policy : Policy;
  circuits : gmap string Circuit
}.

(** Modelled from the spec: the response envelope, body and source. *)
Record ResponseEnvelope : Type := { body : jsstring; source : Source }.

(** Modelled from the spec: the Request Router, whose code is in the
    backend.  It resolves descriptor and credentials, passing their
    errors on, runs the call under the circuit of the service, and
    answers with the live body or with the fallback text. *)
Definition route (svc : string) (now : N) (requestText : jsstring)
    (live : option jsstring) (g : State)
    : State * (GatewayError + ResponseEnvelope) :=
  match resolve (registry g) svc with
  | inl e => (g, inl e)
  | inr _ =>
      match credentialFor (keys g) svc with
      | inl e => (g, inl e)
      | inr _ =>
          let c := default closedCircuit (circuits g !! svc) in
          let '(c', src, _) :=
            call (policy g) now (match live with Some _ => true | None => false end) c in
          ({| registry := registry g;
              keys := keys g;
              policy := policy g;
              circuits := <[svc := c']> (circuits g) |},
           inr {| body := match src, live with
                          | LIVE, Some b => b
                          | _, _ => Chatbot.getFallbackResponse requestText
                          end;
                  source := src |})
      end
  end.

(** Modelled from the spec: the requests the running gateway serves. *)
Inductive Request : Type :=
| Resolve (svc : string)
| CredentialFor (svc : string)
| Route (svc : string) (now : N) (requestText : jsstring) (live : option jsstring).

(** Modelled from the spec: the state after one request. *)
Definition serve (r : Request) (g : State) : State :=
  match r with
  | Resolve _ => g
  | CredentialFor _ => g
  | Route svc now requestText live => fst (route svc now requestText live g)
  end.

(** Modelled from the spec: the state after a sequence of requests. *)
Definition run (rs : list Request) (g : State) : State :=
  fold_left (fun g r => serve r g) rs g.

End Gateway.

(** ** The contract's wording of the fallback and of the outcomes *)

Module Contract.

(** The topic table of the fallback function, in table order: the
    keywords of an entry and its canned answer. *)
Definition topicTable : list (list jsstring * jsstring) :=
  [ ([utf16 "array"; utf16 "sorting"], arrayText);
    ([utf16 "tree"; utf16 "binary"], treeText);
    ([utf16 "graph"; utf16 "bfs"; utf16 "dfs"], graphText);
    ([utf16 "dynamic"; utf16 "dp"], dpText);
    ([utf16 "time"; utf16 "complexity"], complexityText) ].

(** An entry matches when one of its keywords occurs in the request
    text, read in lower case. *)
Definition matches (requestText : jsstring) (entry : list jsstring * jsstring) : bool :=
  existsb (includes (toLowerCase requestText)) (fst entry).

(** First match wins in table order, the generic study tips otherwise. *)
Definition fallbackByTable (requestText : jsstring) : jsstring :=
  match find (matches requestText) topicTable with
  | Some entry => snd entry
  | None => defaultText
  end.

Definition cannedTexts : list jsstring :=
  [arrayText; treeText; graphText; dpText; complexityText; defaultText].

(** The live call failed: no response, a status outside 2xx, or a body
    that yields no reply object. *)
Definition failed (up : Upstream) : bool :=
  match up with
  | Rejects => true
  | Resolves false _ => true
  | Resolves true BodyRejects => true
  | Resolves true (BodyParses JNull) => true
  | Resolves true (BodyParses _) => false
  end.

(** The reply field of a live call that did not fail: [result.response]. *)
Definition liveReply (up : Upstream) : option Json :=
  match up with
  | Resolves _ (BodyParses (JObject members)) => member (utf16 "response") members
  | _ => None
  end.


Definition blank (s : jsstring) : bool := forallb isWhiteSpace s.

Definition userMessageOf (env : Env) (st : ChatState) : Message :=
  {| id := toString (now (sentAt env));
     content := JString (inputValue st);
     isBot := false;
     timestamp := date (sentAt env) |}.



(** The effects a run of the handler added to the log. *)
Definition effectsOf (env : Env) (w : World) : list Effect :=
  drop (length (log w)) (log (snd (handleSendMessage env w))).

Definition networkCalls (effs : list Effect) : nat :=
  length (List.filter (fun e => match e with NetworkCall _ => true | _ => false end) effs).

(** A response is fallback-sourced when the handler announced the
    offline responses. *)
Definition sourceOf (effs : list Effect) : Gateway.Source :=
  if existsb (fun e => match e with Toast _ _ _ => true | _ => false end) effs
  then Gateway.FALLBACK
  else Gateway.LIVE.

Definition hasOverride (cfg : Gateway.KeyConfig) (svc : string) : bool :=
  match Gateway.overrideKeys cfg !! svc with
  | Some k => Gateway.nonEmpty k
  | None => false
  end.

(** [n] failed calls in a row, all at time [now]. *)
Fixpoint failures (pol : Gateway.Policy) (now : N) (n : nat) (c : Gateway.Circuit)
    : Gateway.Circuit :=
  match n with
  | O => c
  | S n' => fst (fst (Gateway.call pol now false (failures pol now n' c)))
  end.

End Contract.

Import Contract.

(** ** Plain text *)

Module Text.

(** Every byte of the text is below 128: one code unit per byte. *)
Fixpoint ascii7 (s : string) : bool :=
  match s with
  | EmptyString => true
  | String a s' => (N_of_ascii a <? 128) && ascii7 s'
  end.

(** The capital Latin letters. *)
Definition isUpperLatin (u : N) : bool := (65 <=? u) && (u <=? 90).

(** The two code units above U+007F whose lower case holds a Latin
    letter: U+0130 and U+212A. *)
Definition foldsToLatin (u : N) : bool := (u =? 304) || (u =? 8490).

(** The same code unit, or a capital Latin letter and its small one. *)
Definition sameLetter (a b : N) : bool :=
  (a =? b)
  || (isUpperLatin a && (b =? a + 32))
  || (isUpperLatin b && (a =? b + 32)).

(** Two strings that differ at most in the case of Latin letters. *)
Fixpoint sameUpToCase (s t : jsstring) : bool :=
  match s, t with
  | [], [] => true
  | a :: s', b :: t' => sameLetter a b && sameUpToCase s' t'
  | _, _ => false
  end.

(** A string with every code unit above U+007F replaced by one mark:
    what is left are its Latin letters, digits and signs in place. *)
Definition latinView (s : jsstring) : jsstring :=
  map (fun u => if u <? 128 then u else 128) s.

(** Every code unit of the string is below 128. *)
Definition latinOnly (s : jsstring) : bool := forallb (fun u => u <? 128) s.

End Text.

Import Text.

(** ** The rest of the chatbot widget *)

Module ChatWidget.

(** The keyboard event as the handler reads and changes it. *)
Record KeyboardEvent : Type := {
  key : jsstring;
  shiftKey : bool;
  defaultPrevented : bool
}.

(** [e.preventDefault()] *)
Definition preventDefault (e : KeyboardEvent) : KeyboardEvent :=
  {| key := key e; shiftKey := shiftKey e; defaultPrevented := true |}.

(** [handleKeyPress]: Enter without Shift cancels the default action and
    sends; the event comes back as the handler left it. *)
Definition handleKeyPress (e : KeyboardEvent) (env : Env) : M KeyboardEvent :=
  if bool_decide (key e = utf16 "Enter") && negb (shiftKey e)
  then
    let e' := preventDefault e in
    handleSendMessage env;;
    mret e'
  else mret e.

(** [disabled] of the send button and of the input field. *)
Definition sendDisabled (st : ChatState) : bool :=
  negb (truthy (trim (inputValue st))) || isLoading st.

Definition inputDisabled (st : ChatState) : bool := isLoading st.

(** *** A send in its two halves

    [handleSendMessage] is asynchronous: it runs up to the call of
    [fetch] when the user sends, and resumes when the promise settles.
    Between the two the widget shows the user's message without an
    answer, with [isLoading] up. *)

(** The first half, up to [await fetch(...)]; the result tells whether a
    call was started. *)
Definition sendStart (sent : Clock) (inputValue : jsstring) (isLoading : bool)
    : M bool :=
  if negb (truthy (trim inputValue)) || isLoading then mret false
  else
    let userMessage :=
      {| id := toString (now sent);
         content := JString inputValue;
         isBot := false;
         timestamp := date sent |} in
    setMessages (fun prev => prev ++ [userMessage]);;
    setInputValue [];;
    setIsLoading true;;
    emit (NetworkCall
            {| url := utf16 "http://localhost:8002/chat";
               method := utf16 "POST";
               contentType := utf16 "application/json";
               message := inputValue;
               context := utf16 "dsa_learning" |});;
    mret true.

(** The promise of [fetch] settles. *)
Definition settled (up : Upstream) : M (bool * Body) :=
  match up with
  | Rejects => throw FetchFailed
  | Resolves ok body => mret (ok, body)
  end.

(** The second half: the rest of the [try] block, the [catch] and the
    [finally], with the [inputValue] the closure holds.  Its two waits,
    for [fetch] and for [response.json()], are taken together: the
    handler sets nothing between them, and what the widget shows is the
    same before and after the first. *)
Definition sendSettle (up : Upstream) (replied : Clock) (inputValue : jsstring)
    : M unit :=
  tryCatchFinally
    (response ← settled up;
     (if negb (fst response)
      then throw (ErrorObject (utf16 "Failed to get response from DSA assistant"))
      else mret tt);;
     result ← json (snd response);
     reply ← responseOf result;
     let botMessage :=
       {| id := toString (now replied + 1);
          content := orDefault reply rephraseText;
          isBot := true;
          timestamp := date replied |} in
     setMessages (fun prev => prev ++ [botMessage]))
    (fun error =>
       emit (ConsoleError (utf16 "DSA Chatbot error:") error);;
       let fallbackResponse := getFallbackResponse inputValue in
       let botMessage :=
         {| id := toString (now replied + 1);
            content := JString fallbackResponse;
            isBot := true;
            timestamp := date replied |} in
       setMessages (fun prev => prev ++ [botMessage]);;
       emit (Toast (utf16 "Connection Issue")
                   (utf16 "Using offline responses. Backend service may be unavailable.")
                   (utf16 "destructive")))
    (setIsLoading false).

(** The mounted widget: what it shows and has done, and the calls that
    are under way, each with the input its closure holds, oldest first. *)
Record Widget : Type := { world : World; pending : list jsstring }.

(** What happens to the mounted widget: the user types into the field,
    clicks the send button or presses a key in the field, or the call
    number [n] of those under way settles. *)
Inductive ChatEvent : Type :=
| InputChange (value : jsstring)
| SendClick (sent : Clock)
| KeyPress (e : KeyboardEvent) (sent : Clock)
| Settled (n : nat) (up : Upstream) (replied : Clock).

(** The handler of the current render starts. *)
Definition start (sent : Clock) (wd : Widget) : Widget :=
  let input := inputValue (chat (world wd)) in
  match sendStart sent input (isLoading (chat (world wd))) (world wd) with
  | (Normal true, w') => {| world := w'; pending := pending wd ++ [input] |}
  | (_, w') => {| world := w'; pending := pending wd |}
  end.

Definition dispatch (ev : ChatEvent) (wd : Widget) : Widget :=
  match ev with
  | InputChange value =>
      if inputDisabled (chat (world wd)) then wd
      else {| world := snd (setInputValue value (world wd)); pending := pending wd |}
  | SendClick sent => start sent wd
  | KeyPress e sent =>
      if bool_decide (key e = utf16 "Enter") && negb (shiftKey e)
      then start sent wd
      else wd
  | Settled n up replied =>
      match pending wd !! n with
      | Some input =>
          {| world := snd (sendSettle up replied input (world wd));
             pending := delete n (pending wd) |}
      | None => wd
      end
  end.

(** The states the mounted widget can be in.  A call that never settles
    simply has no [Settled] event. *)
Inductive reachable (mountedAt : N) : Widget -> Prop :=
| reachable_mount :
    reachable mountedAt
      {| world := {| chat := initialState mountedAt; log := [] |}; pending := [] |}
| reachable_event ev wd :
    reachable mountedAt wd -> reachable mountedAt (dispatch ev wd).

(** A run of exchanges: each message of the user directly followed by a
    message of the bot. *)
Fixpoint exchanges (ms : list Message) : bool :=
  match ms with
  | [] => true
  | u :: rest =>
      match rest with
      | [] => false
      | b :: rest' => negb (isBot u) && isBot b && exchanges rest'
      end
  end.

Definition userMessages (ms : list Message) : nat :=
  length (List.filter (fun m => negb (isBot m)) ms).

End ChatWidget.

(** ** The rendered course form *)

Module CourseFormView.

Import CourseForm.

(** The [name] fields of [cseSubjects], the [value] fields of
    [purposeOptions] and of [difficultyOptions]: what the buttons pass to
    the handlers. *)
Definition cseSubjects : list jsstring :=
  map utf16
    [ "Data Structures & Algorithms"; "Database Management Systems";
      "Computer Networks"; "Operating Systems"; "Software Engineering";
      "Machine Learning"; "Computer Graphics"; "Compiler Design" ]%string.

Definition purposeOptions : list jsstring :=
  map utf16
    [ "exam_preparation"; "job_interview"; "skill_development";
      "project_work" ]%string.

Definition difficultyOptions : list jsstring :=
  map utf16 [ "beginner"; "intermediate"; "advanced" ]%string.

(** An event the rendered form can raise: the three button rows pass
    only their own entries. *)
Definition offered (ev : Event) : Prop :=
  match ev with
  | SubjectClick subject => In subject cseSubjects
  | PurposeClick p => In p purposeOptions
  | DifficultyClick d => In d difficultyOptions
  | _ => True
  end.

Inductive uiReachable : FormState -> Prop :=
| uiReachable_init : uiReachable initialForm
| uiReachable_step ev st :
    uiReachable st -> offered ev -> uiReachable (fst (dispatch ev st)).

(** [disabled] of the submit button. *)
Definition submitDisabled (st : FormState) (isLoading : bool) : bool :=
  negb (isFormValid st) || isLoading.

End CourseFormView.

(** ** The course generator page *)

Module CourseGenerator.

(** The signed-in user of [useAuth], as far as the page reads it. *)
Record User : Type := { userId : jsstring }.

(** The [useState] cells the submit handler sets, and [progress], which
    it leaves alone. *)
Record PageState : Type := {
  isLoading : bool;
  error : option jsstring;
  generationInBackground : bool;
  generationStartTime : option N;
  progress : N
}.

Inductive PageEffect : Type :=
| Navigate (path : jsstring)
| GenerateCourse (courseName purpose difficulty userId : jsstring)
| ConsoleError (label : jsstring) (e : JsError)
| Toast (title description variant : jsstring).

Record PageWorld : Type := { page : PageState; plog : list PageEffect }.

Definition P (A : Type) : Type := PageWorld -> Completion A * PageWorld.

#[export] Instance P_ret : MRet P := fun A a w => (Normal a, w).

#[export] Instance P_bind : MBind P := fun A B f m w =>
  match m w with
  | (Normal a, w') => f a w'
  | (Throw e, w') => (Throw e, w')
  end.

Definition throw {A : Type} (e : JsError) : P A := fun w => (Throw e, w).

(** [try { body } catch (error) { handler error } finally { fin }] *)
Definition tryCatchFinally {A : Type}
    (body : P A) (handler : JsError -> P A) (fin : P unit) : P A :=
  fun w =>
    let (c, w1) :=
      match body w with
      | (Throw e, w') => handler e w'
      | (Normal a, w') => (Normal a, w')
      end in
    match fin w1 with
    | (Normal _, w2) => (c, w2)
    | (Throw e, w2) => (Throw e, w2)
    end.

Definition emit (e : PageEffect) : P unit := fun w =>
  (Normal tt, {| page := page w; plog := plog w ++ [e] |}).

Definition navigate (path : jsstring) : P unit := emit (Navigate path).

Definition setIsLoading (b : bool) : P unit := fun w =>
  (Normal tt,
   {| page := {| isLoading := b;
                 error := error (page w);
                 generationInBackground := generationInBackground (page w);
                 generationStartTime := generationStartTime (page w);
                 progress := progress (page w) |};
      plog := plog w |}).

Definition setError (v : option jsstring) : P unit := fun w =>
  (Normal tt,
   {| page := {| isLoading := isLoading (page w);
                 error := v;
                 generationInBackground := generationInBackground (page w);
                 generationStartTime := generationStartTime (page w);
                 progress := progress (page w) |};
      plog := plog w |}).

Definition setGenerationInBackground (b : bool) : P unit := fun w =>
  (Normal tt,
   {| page := {| isLoading := isLoading (page w);
                 error := error (page w);
                 generationInBackground := b;
                 generationStartTime := generationStartTime (page w);
                 progress := progress (page w) |};
      plog := plog w |}).

Definition setGenerationStartTime (t : option N) : P unit := fun w =>
  (Normal tt,
   {| page := {| isLoading := isLoading (page w);
                 error := error (page w);
                 generationInBackground := generationInBackground (page w);
                 generationStartTime := t;
                 progress := progress (page w) |};
      plog := plog w |}).

(** What one call of the handler meets: the user of the current render,
    what [courseService.generateCourse] does (it rejects, or resolves to
    the id of the new course), and [new Date()] when it has resolved. *)
Record PageEnv : Type := {
  user : option User;
  generation : JsError + jsstring;
  startedAt : N
}.

(** [courseService.generateCourse(courseName, purpose, difficulty, user.id)] *)
Definition generateCourse (env : PageEnv)
    (courseName purpose difficulty uid : jsstring) : P jsstring :=
  emit (GenerateCourse courseName purpose difficulty uid);;
  match generation env with
  | inl e => throw e
  | inr courseId => mret courseId
  end.

(** [handleSubmit] of the page *)
Definition handleSubmit (env : PageEnv) (courseName purpose difficulty : jsstring)
    : P unit :=
  match user env with
  | None => navigate (utf16 "/auth")
  | Some u =>
      setIsLoading true;;
      setError None;;
      tryCatchFinally
        (courseId ← generateCourse env courseName purpose difficulty (userId u);
         setGenerationInBackground true;;
         setGenerationStartTime (Some (startedAt env));;
         navigate (utf16 "/course/" ++ courseId))
        (fun error =>
           emit (ConsoleError (utf16 "Course generation failed:") error);;
           setError (Some (utf16 "Failed to generate course. Please try again."));;
           emit (Toast (utf16 "Error")
                       (utf16 "Failed to generate course. Please try again.")
                       (utf16 "destructive")))
        (setIsLoading false)
  end.

(** The effects of a log that leave the page or reach the service. *)
Definition navigations (effs : list PageEffect) : list jsstring :=
  flat_map (fun e => match e with Navigate path => [path] | _ => [] end) effs.

Definition generations (effs : list PageEffect) : nat :=
  length (List.filter (fun e => match e with GenerateCourse _ _ _ _ => true | _ => false end) effs).

End CourseGenerator.

(** The canned texts are compared by name in the proofs below; they are
    evaluated only where a proof computes. *)
#[local] Opaque arrayText treeText graphText dpText complexityText defaultText
  rephraseText greetingText.

(** ** Properties of the string primitives *)

Lemma lowerUnit_fixed (u : N) : flat_map lowerUnit (lowerUnit u) = lowerUnit u.
Proof.
  unfold lowerUnit.
  destruct ((65 <=? u) && (u <=? 90)) eqn:Hcap.
  - apply andb_true_iff in Hcap as [H1 H2].
    apply N.leb_le in H1. apply N.leb_le in H2.
    cbn [flat_map app]. unfold lowerUnit.
    replace (u + 32 <=? 90) with false by (symmetry; apply N.leb_gt; lia).
    rewrite andb_false_r.
    replace (u + 32 =? 304) with false by (symmetry; apply N.eqb_neq; lia).
    replace (u + 32 =? 8490) with false by (symmetry; apply N.eqb_neq; lia).
    reflexivity.
  - destruct (u =? 304) eqn:H304; [reflexivity|].
    destruct (u =? 8490) eqn:H8490; [reflexivity|].
    cbn [flat_map app]. unfold lowerUnit.
    rewrite Hcap, H304, H8490. reflexivity.
Qed.

Lemma toLowerCase_idempotent (s : jsstring) :
  toLowerCase (toLowerCase s) = toLowerCase s.
Proof.
  unfold toLowerCase.
  induction s as [|u s IH]; [reflexivity|].
  cbn [flat_map]. rewrite flat_map_app, IH, lowerUnit_fixed. reflexivity.
Qed.

Lemma trimStart_blank (s : jsstring) : blank s = true -> trimStart s = [].
Proof.
  unfold blank. induction s as [|u s IH]; cbn [forallb trimStart]; [reflexivity|].
  intros H. apply andb_true_iff in H as [Hu Hs]. rewrite Hu. auto.
Qed.

Lemma trimStart_nil_blank (s : jsstring) : trimStart s = [] -> blank s = true.
Proof.
  unfold blank. induction s as [|u s IH]; cbn [forallb trimStart]; [reflexivity|].
  destruct (isWhiteSpace u); [auto | discriminate].
Qed.

Lemma trimStart_head (s : jsstring) :
  trimStart s = [] \/ exists u t, trimStart s = u :: t /\ isWhiteSpace u = false.
Proof.
  induction s as [|u s IH]; cbn [trimStart]; [left; reflexivity|].
  destruct (isWhiteSpace u) eqn:Hu; [exact IH|].
  right. exists u, s. split; [reflexivity | exact Hu].
Qed.

Lemma blank_app (s t : jsstring) : blank (s ++ t) = blank s && blank t.
Proof. unfold blank. apply forallb_app. Qed.

Lemma blank_rev (s : jsstring) : blank (rev s) = blank s.
Proof.
  induction s as [|u s IH]; [reflexivity|].
  cbn [rev]. rewrite blank_app, IH. unfold blank. cbn [forallb].
  rewrite andb_true_r. apply andb_comm.
Qed.

(** [trim] leaves nothing exactly of the strings made of white space. *)
Lemma trim_falsy_iff_blank (s : jsstring) : truthy (trim s) = false <-> blank s = true.
Proof.
  split.
  - intros H. unfold trim, trimEnd in H.
    assert (Hnil : trimStart (rev (trimStart s)) = []).
    { destruct (trimStart (rev (trimStart s))) as [|x l] eqn:E; [reflexivity|].
      cbn [rev] in H. destruct (rev l ++ [x]) eqn:E'; [|discriminate].
      destruct (rev l); discriminate. }
    apply trimStart_nil_blank in Hnil. rewrite blank_rev in Hnil.
    destruct (trimStart_head s) as [H0 | (u & t & Hut & Hu)].
    + apply trimStart_nil_blank. exact H0.
    + rewrite Hut in Hnil. unfold blank in Hnil. cbn [forallb] in Hnil.
      rewrite Hu in Hnil. discriminate.
  - intros H. unfold trim. rewrite (trimStart_blank s H). reflexivity.
Qed.

Lemma trim_truthy_iff_not_blank (s : jsstring) : truthy (trim s) = true <-> blank s = false.
Proof.
  pose proof (trim_falsy_iff_blank s) as [H1 H2].
  destruct (truthy (trim s)), (blank s); split; intros; try reflexivity; try discriminate.
  - discriminate (H2 eq_refl).
  - discriminate (H1 eq_refl).
Qed.

(** ** The fallback function *)

Lemma getFallbackResponse_table (q : jsstring) :
  getFallbackResponse q = fallbackByTable q.
Proof.
  unfold getFallbackResponse, fallbackByTable, topicTable, matches.
  cbv zeta. cbn [find existsb fst snd].
  set (lq := toLowerCase q).
  repeat rewrite orb_false_r.
  repeat match goal with
         | |- context [includes lq ?k] =>
             destruct (includes lq k); cbn [orb snd]; try reflexivity
         end.
Qed.

(** C1: the fallback function answers by keyword membership against the
    topic table, first match in table order, and with the generic study
    tips when no keyword occurs; the three sample requests get the
    array/sorting text, the graph text and the generic text. *)
Theorem fallback_classifies_by_topic_table :
  (forall requestText, getFallbackResponse requestText = fallbackByTable requestText)
  /\ includes (getFallbackResponse (utf16 "best sorting algorithm for arrays")) arrayText = true
  /\ includes (getFallbackResponse (utf16 "explain DFS on a graph")) graphText = true
  /\ getFallbackResponse (utf16 "asdkjh") = defaultText.
Proof.
  split; [exact getFallbackResponse_table|].
  repeat split; vm_compute; reflexivity.
Qed.

Lemma getFallbackResponse_canned (q : jsstring) :
  In (getFallbackResponse q) cannedTexts.
Proof.
  rewrite getFallbackResponse_table. unfold fallbackByTable.
  destruct (find (matches q) topicTable) as [entry|] eqn:Hfind.
  - apply find_some in Hfind as [Hin _].
    unfold topicTable in Hin. cbn [In] in Hin.
    unfold cannedTexts.
    destruct Hin as [<-|[<-|[<-|[<-|[<-|[]]]]]]; cbn [snd].
    + left; reflexivity.
    + right; left; reflexivity.
    + do 2 right; left; reflexivity.
    + do 3 right; left; reflexivity.
    + do 4 right; left; reflexivity.
  - unfold cannedTexts. do 5 right; left; reflexivity.
Qed.

Lemma cannedTexts_truthy : forallb truthy cannedTexts = true.
Proof. vm_compute. reflexivity. Qed.

Lemma getFallbackResponse_truthy (q : jsstring) : truthy (getFallbackResponse q) = true.
Proof.
  pose proof cannedTexts_truthy as H. rewrite forallb_forall in H.
  apply H, getFallbackResponse_canned.
Qed.

(** C4: the fallback function is total and deterministic: every input
    string has an answer, one of the six canned texts and never empty, and
    two evaluations on the same input give the same answer. *)
Theorem fallback_total_deterministic (q : jsstring) :
  (exists r, getFallbackResponse q = r /\ In r cannedTexts /\ truthy r = true)
  /\ (forall r1 r2, getFallbackResponse q = r1 -> getFallbackResponse q = r2 -> r1 = r2).
Proof.
  split.
  - exists (getFallbackResponse q).
    split; [reflexivity|].
    split; [apply getFallbackResponse_canned | apply getFallbackResponse_truthy].
  - intros r1 r2 H1 H2. rewrite <- H1, <- H2. reflexivity.
Qed.

Lemma fallback_total_deterministic_witness :
  exists r, getFallbackResponse (utf16 "asdkjh") = r /\ r = defaultText.
Proof.
  destruct (fallback_total_deterministic (utf16 "asdkjh")) as [[r [Hr _]] Hdet].
  exists r. split; [exact Hr|].
  apply (Hdet r defaultText); [exact Hr | vm_compute; reflexivity].
Defined.

Lemma lowerUnit_plain (u : N) :
  isUpperLatin u = false -> foldsToLatin u = false -> lowerUnit u = [u].
Proof.
  unfold isUpperLatin, foldsToLatin, lowerUnit. intros Hup Hfold.
  apply orb_false_iff in Hfold as [H1 H2]. rewrite Hup, H1, H2. reflexivity.
Qed.

Lemma lowerUnit_never_upper (u x : N) :
  In x (lowerUnit u) -> isUpperLatin x = false /\ foldsToLatin x = false.
Proof.
  unfold lowerUnit, isUpperLatin, foldsToLatin.
  destruct ((65 <=? u) && (u <=? 90)) eqn:Hup.
  - apply andb_true_iff in Hup as [H1 H2].
    apply N.leb_le in H1. apply N.leb_le in H2.
    intros [<- | []]. split.
    + apply andb_false_iff. right. apply N.leb_gt. lia.
    + apply orb_false_iff. split; apply N.eqb_neq; lia.
  - destruct (u =? 304) eqn:H304.
    { intros [<- | [<- | []]]; split; reflexivity. }
    destruct (u =? 8490) eqn:H8490.
    { intros [<- | []]; split; reflexivity. }
    intros [<- | []]. rewrite Hup, H304, H8490. split; reflexivity.
Qed.

Lemma sameLetter_lowerUnit (a b : N) :
  sameLetter a b = true -> lowerUnit a = lowerUnit b.
Proof.
  unfold sameLetter. rewrite !orb_true_iff, !andb_true_iff, !N.eqb_eq.
  assert (Hcap : forall u, isUpperLatin u = true ->
                           lowerUnit u = [u + 32] /\ lowerUnit (u + 32) = [u + 32]).
  { intros u Hu. split.
    - unfold lowerUnit. unfold isUpperLatin in Hu. rewrite Hu. reflexivity.
    - apply lowerUnit_plain;
        unfold isUpperLatin, foldsToLatin in *;
        apply andb_true_iff in Hu as [H1 H2];
        apply N.leb_le in H1; apply N.leb_le in H2.
      + apply andb_false_iff. right. apply N.leb_gt. lia.
      + apply orb_false_iff. split; apply N.eqb_neq; lia. }
  intros [[-> | [Ha ->]] | [Hb ->]].
  - reflexivity.
  - destruct (Hcap a Ha) as [-> ->]. reflexivity.
  - destruct (Hcap b Hb) as [-> ->]. reflexivity.
Qed.

Lemma sameUpToCase_lower (s t : jsstring) :
  sameUpToCase s t = true -> toLowerCase s = toLowerCase t.
Proof.
  revert t. induction s as [|a s IH]; intros [|b t] H; try discriminate H.
  - reflexivity.
  - cbn [sameUpToCase] in H. apply andb_true_iff in H as [Hab Hst].
    unfold toLowerCase in *. cbn [flat_map].
    rewrite (sameLetter_lowerUnit a b Hab), (IH t Hst). reflexivity.
Qed.

Lemma toLowerCase_plain (s : jsstring) :
  existsb isUpperLatin s = false -> existsb foldsToLatin s = false ->
  toLowerCase s = s.
Proof.
  unfold toLowerCase. induction s as [|u s IH]; [reflexivity|].
  cbn [existsb flat_map]. intros Hup Hfold.
  apply orb_false_iff in Hup as [Hu Hup]. apply orb_false_iff in Hfold as [Hf Hfold].
  rewrite (lowerUnit_plain u Hu Hf), (IH Hup Hfold). reflexivity.
Qed.

Lemma toLowerCase_no_upper (s : jsstring) :
  existsb isUpperLatin (toLowerCase s) = false.
Proof.
  unfold toLowerCase. induction s as [|u s IH]; [reflexivity|].
  cbn [flat_map]. rewrite existsb_app, IH, orb_false_r.
  destruct (existsb isUpperLatin (lowerUnit u)) eqn:H; [|reflexivity].
  apply existsb_exists in H as (x & Hin & Hx).
  destruct (lowerUnit_never_upper u x Hin) as [Hno _]. congruence.
Qed.

Lemma latinView_unit (a b : N) :
  (if a <? 128 then a else 128) = (if b <? 128 then b else 128) ->
  isUpperLatin a = isUpperLatin b
  /\ forall c, (c <? 128) = true -> (c =? a) = (c =? b).
Proof.
  unfold isUpperLatin.
  destruct (N.ltb_spec a 128), (N.ltb_spec b 128); intros Hab.
  - subst. auto.
  - subst a. lia.
  - subst b. lia.
  - split.
    + replace (a <=? 90) with false by (symmetry; apply N.leb_gt; lia).
      replace (b <=? 90) with false by (symmetry; apply N.leb_gt; lia).
      rewrite !andb_false_r. reflexivity.
    + intros c Hc. apply N.ltb_lt in Hc.
      replace (c =? a) with false by (symmetry; apply N.eqb_neq; lia).
      symmetry. apply N.eqb_neq. lia.
Qed.

Lemma latinView_upper (s t : jsstring) :
  latinView s = latinView t -> existsb isUpperLatin s = existsb isUpperLatin t.
Proof.
  unfold latinView. revert t.
  induction s as [|a s IH]; intros [|b t] H; try discriminate H; [reflexivity|].
  cbn [map] in H. injection H as Hab Hst.
  cbn [existsb]. rewrite (proj1 (latinView_unit a b Hab)), (IH t Hst). reflexivity.
Qed.

Lemma latinView_startsWith (s t k : jsstring) :
  latinView s = latinView t -> latinOnly k = true ->
  startsWith s k = startsWith t k.
Proof.
  unfold latinView, latinOnly. revert s t.
  induction k as [|c k IH]; intros s t Hst Hk.
  - destruct s, t; reflexivity.
  - cbn [forallb] in Hk. apply andb_true_iff in Hk as [Hc Hk].
    destruct s as [|a s], t as [|b t]; try discriminate Hst; [reflexivity|].
    cbn [map] in Hst. injection Hst as Hab Hst.
    cbn [startsWith].
    rewrite (proj2 (latinView_unit a b Hab) c Hc), (IH s t Hst Hk). reflexivity.
Qed.

Lemma latinView_includes (s t k : jsstring) :
  latinView s = latinView t -> latinOnly k = true ->
  includes s k = includes t k.
Proof.
  intros Hst Hk. revert t Hst.
  induction s as [|a s IH]; intros [|b t] Hst; try discriminate Hst.
  - reflexivity.
  - cbn [includes].
    rewrite (latinView_startsWith (a :: s) (b :: t) k Hst Hk).
    unfold latinView in Hst. cbn [map] in Hst. injection Hst as _ Hst.
    rewrite (IH t Hst). reflexivity.
Qed.

(** C8: the answer does not depend on the case of the query.  The query
    and its lower-case form get the same answer; so do any two queries
    that differ only in the case of Latin letters; and so does every
    string that agrees with the lower-case form at the Latin code units
    and holds neither U+0130 nor U+212A, which is what any lower-casing
    by the Unicode tables yields.  The folding is there: a query in
    capitals is lower-cased unit by unit and is answered like the same
    query in small letters. *)
Theorem fallback_case_insensitive :
  (forall q, getFallbackResponse q = getFallbackResponse (toLowerCase q))
  /\ (forall q1 q2, sameUpToCase q1 q2 = true ->
                    getFallbackResponse q1 = getFallbackResponse q2)
  /\ (forall q lowered,
        latinView lowered = latinView (toLowerCase q) ->
        existsb foldsToLatin lowered = false ->
        getFallbackResponse lowered = getFallbackResponse q)
  /\ toLowerCase (utf16 "Explain DFS on a Graph") = utf16 "explain dfs on a graph"
  /\ getFallbackResponse (utf16 "BALANCED BINARY TREES") = treeText
  /\ getFallbackResponse (utf16 "balanced binary trees") = treeText
  /\ getFallbackResponse (utf16 "Time COMPLEXITY?") = complexityText.
Proof.
  split; [|split; [|split]].
  - intros q. unfold getFallbackResponse. cbv zeta.
    rewrite toLowerCase_idempotent. reflexivity.
  - intros q1 q2 H. unfold getFallbackResponse. cbv zeta.
    rewrite (sameUpToCase_lower q1 q2 H). reflexivity.
  - intros q lowered Hview Hfold.
    assert (Hup : existsb isUpperLatin lowered = false).
    { rewrite (latinView_upper _ _ Hview). apply toLowerCase_no_upper. }
    unfold getFallbackResponse. cbv zeta.
    rewrite (toLowerCase_plain lowered Hup Hfold).
    rewrite (latinView_includes _ _ (utf16 "array") Hview eq_refl),
            (latinView_includes _ _ (utf16 "sorting") Hview eq_refl),
            (latinView_includes _ _ (utf16 "tree") Hview eq_refl),
            (latinView_includes _ _ (utf16 "binary") Hview eq_refl),
            (latinView_includes _ _ (utf16 "graph") Hview eq_refl),
            (latinView_includes _ _ (utf16 "bfs") Hview eq_refl),
            (latinView_includes _ _ (utf16 "dfs") Hview eq_refl),
            (latinView_includes _ _ (utf16 "dynamic") Hview eq_refl),
            (latinView_includes _ _ (utf16 "dp") Hview eq_refl),
            (latinView_includes _ _ (utf16 "time") Hview eq_refl),
            (latinView_includes _ _ (utf16 "complexity") Hview eq_refl).
    reflexivity.
  - repeat split; vm_compute; reflexivity.
Qed.

Lemma fallback_case_insensitive_witness :
  getFallbackResponse (utf16 "Merge SORTING") = getFallbackResponse (utf16 "merge sorting")
  /\ getFallbackResponse (utf16 "r" ++ [233] ++ utf16 "sum" ++ [233] ++ utf16 " of dfs")
     = getFallbackResponse (utf16 "R" ++ [201] ++ utf16 "SUM" ++ [201] ++ utf16 " OF DFS").
Proof.
  split.
  - apply (proj1 (proj2 fallback_case_insensitive)). vm_compute. reflexivity.
  - apply (proj1 (proj2 (proj2 fallback_case_insensitive)));
      vm_compute; reflexivity.
Defined.

(** ** The message-send operation *)

(** The handler as a whole, in the three situations it distinguishes. *)
Lemma handleSendMessage_guarded (env : Env) (w : World) :
  blank (inputValue (chat w)) = true \/ isLoading (chat w) = true ->
  handleSendMessage env w = (Normal tt, w).
Proof.
  intros H. unfold handleSendMessage, sendMessage.
  replace (negb (truthy (trim (inputValue (chat w)))) || isLoading (chat w))
    with true; [reflexivity|].
  symmetry. apply orb_true_iff.
  destruct H as [H | H]; [left | right; exact H].
  apply trim_falsy_iff_blank in H. rewrite H. reflexivity.
Qed.

Lemma guard_open (st : ChatState) :
  blank (inputValue st) = false -> isLoading st = false ->
  negb (truthy (trim (inputValue st))) || isLoading st = false.
Proof.
  intros Hb Hl. apply trim_truthy_iff_not_blank in Hb. rewrite Hb, Hl. reflexivity.
Qed.

Ltac run_handler :=
  cbv [mbind M_bind mret M_ret throw tryCatchFinally fetch json responseOf emit
       setMessages setInputValue setIsLoading chat log messages inputValue
       isLoading fst snd upstream negb orDefault].

Lemma handleSendMessage_live (env : Env) (w : World) (result : Json) :
  blank (inputValue (chat w)) = false -> isLoading (chat w) = false ->
  upstream env = Resolves true (BodyParses result) -> result <> JNull ->
  handleSendMessage env w =
    (Normal tt,
     {| chat :=
          {| messages :=
               (messages (chat w) ++ [userMessageOf env (chat w)])
               ++ [ {| id := toString (now (repliedAt env) + 1);
                       content := orDefault (liveReply (upstream env)) rephraseText;
                       isBot := true;
                       timestamp := date (repliedAt env) |} ];
             inputValue := [];
             isLoading := false |};
        log := log w
               ++ [ NetworkCall
                      {| url := utf16 "http://localhost:8002/chat";
                         method := utf16 "POST";
                         contentType := utf16 "application/json";
                         message := inputValue (chat w);
                         context := utf16 "dsa_learning" |} ] |}).
Proof.
  intros Hb Hl Hup Hres.
  unfold handleSendMessage, sendMessage, userMessageOf.
  rewrite (guard_open _ Hb Hl), Hup.
  destruct w as [[ms input loading] lg].
  destruct result; try contradiction; run_handler; reflexivity.
Qed.

Lemma handleSendMessage_failed (env : Env) (w : World) :
  blank (inputValue (chat w)) = false -> isLoading (chat w) = false ->
  failed (upstream env) = true ->
  exists error,
  handleSendMessage env w =
    (Normal tt,
     {| chat :=
          {| messages :=
               (messages (chat w) ++ [userMessageOf env (chat w)])
               ++ [ {| id := toString (now (repliedAt env) + 1);
                       content := JString (getFallbackResponse (inputValue (chat w)));
                       isBot := true;
                       timestamp := date (repliedAt env) |} ];
             inputValue := [];
             isLoading := false |};
        log := ((log w
                 ++ [ NetworkCall
                        {| url := utf16 "http://localhost:8002/chat";
                           method := utf16 "POST";
                           contentType := utf16 "application/json";
                           message := inputValue (chat w);
                           context := utf16 "dsa_learning" |} ])
                ++ [ ConsoleError (utf16 "DSA Chatbot error:") error ])
               ++ [ Toast (utf16 "Connection Issue")
                          (utf16 "Using offline responses. Backend service may be unavailable.")
                          (utf16 "destructive") ] |}).
Proof.
  intros Hb Hl Hfail.
  unfold handleSendMessage, sendMessage, userMessageOf.
  rewrite (guard_open _ Hb Hl).
  destruct w as [[ms input loading] lg].
  destruct (upstream env) as [|[|] [|[]]] eqn:Hup;
    try discriminate Hfail;
    eexists; run_handler; rewrite ?Hup; run_handler; reflexivity.
Qed.

Lemma failed_or_live (up : Upstream) :
  failed up = true
  \/ exists result, up = Resolves true (BodyParses result) /\ result <> JNull.
Proof.
  destruct up as [|[|] [|[]]]; cbn [failed]; auto;
    right; eexists; (split; [reflexivity | discriminate]).
Qed.

Lemma live_not_failed (result : Json) :
  result <> JNull -> failed (Resolves true (BodyParses result)) = false.
Proof. destruct result; [contradiction | reflexivity..]. Qed.

Lemma rephraseText_truthy : truthy rephraseText = true.
Proof. vm_compute. reflexivity. Qed.

Lemma orDefault_rephrase_truthy (v : option Json) :
  truthyJson (orDefault v rephraseText) = true.
Proof.
  unfold orDefault. destruct v as [x|]; [|exact rephraseText_truthy].
  destruct (truthyJson x) eqn:Hx; [exact Hx | exact rephraseText_truthy].
Qed.





(** C9: with an input that is empty or all white space, or while a send
    is in flight, the handler returns at once: conversation, input field
    and loading flag are as before and no network call is made. *)
Theorem send_guard_returns_immediately (env : Env) (w : World) :
  blank (inputValue (chat w)) = true \/ isLoading (chat w) = true ->
  handleSendMessage env w = (Normal tt, w)
  /\ messages (chat (snd (handleSendMessage env w))) = messages (chat w)
  /\ networkCalls (effectsOf env w) = 0%nat.
Proof.
  intros H. pose proof (handleSendMessage_guarded env w H) as Hrun.
  split; [exact Hrun|].
  unfold effectsOf. rewrite Hrun. cbn [snd].
  split; [reflexivity|].
  rewrite drop_all. reflexivity.
Qed.

Lemma send_guard_returns_immediately_witness :
  handleSendMessage
    {| sentAt := {| now := 1000; date := 1000 |};
       upstream := Rejects;
       repliedAt := {| now := 1040; date := 1041 |} |}
    {| chat := initialState 0; log := [] |}
  = (Normal tt, {| chat := initialState 0; log := [] |})
  /\ handleSendMessage
       {| sentAt := {| now := 1000; date := 1000 |};
          upstream := Rejects;
          repliedAt := {| now := 1040; date := 1041 |} |}
       {| chat := {| messages := []; inputValue := utf16 "heaps"; isLoading := true |};
          log := [] |}
     = (Normal tt,
        {| chat := {| messages := []; inputValue := utf16 "heaps"; isLoading := true |};
           log := [] |}).
Proof.
  split.
  - apply send_guard_returns_immediately. left. reflexivity.
  - apply send_guard_returns_immediately. right. reflexivity.
Defined.

Lemma effectsOf_guarded (env : Env) (w : World) :
  blank (inputValue (chat w)) = true \/ isLoading (chat w) = true ->
  effectsOf env w = [].
Proof.
  intros H. unfold effectsOf.
  rewrite (handleSendMessage_guarded env w H). cbn [snd]. apply drop_all.
Qed.

Lemma effectsOf_live (env : Env) (w : World) (result : Json) :
  blank (inputValue (chat w)) = false -> isLoading (chat w) = false ->
  upstream env = Resolves true (BodyParses result) -> result <> JNull ->
  sourceOf (effectsOf env w) = Gateway.LIVE.
Proof.
  intros Hb Hl Hup Hres. unfold effectsOf.
  rewrite (handleSendMessage_live env w result Hb Hl Hup Hres). cbn [snd log].
  rewrite drop_app_length. reflexivity.
Qed.

Lemma guard_cases (st : ChatState) :
  (blank (inputValue st) = true \/ isLoading st = true)
  \/ (blank (inputValue st) = false /\ isLoading st = false).
Proof.
  destruct (blank (inputValue st)), (isLoading st); auto.
Qed.

(** C5: a fallback-sourced response comes only from a live call that
    failed: when the handler served the offline answer, the guard had let
    the send through, the call to the chat service had failed, and the
    bot message is the fallback answer; a call that succeeded is never
    answered from the fallback. *)
Theorem fallback_only_after_failure (env : Env) (w : World) :
  sourceOf (effectsOf env w) = Gateway.FALLBACK ->
  failed (upstream env) = true
  /\ networkCalls (effectsOf env w) = 1%nat
  /\ (exists bot, last (messages (chat (snd (handleSendMessage env w)))) = Some bot
                  /\ content bot = JString (getFallbackResponse (inputValue (chat w))))
  /\ (forall result, result <> JNull ->
                     upstream env <> Resolves true (BodyParses result)).
Proof.
  intros Hsrc.
  destruct (guard_cases (chat w)) as [Hg | [Hb Hl]].
  { rewrite (effectsOf_guarded env w Hg) in Hsrc. discriminate. }
  destruct (failed_or_live (upstream env)) as [Hfail | (result & Hup & Hres)].
  2:{ rewrite (effectsOf_live env w result Hb Hl Hup Hres) in Hsrc. discriminate. }
  split; [exact Hfail|].
  destruct (handleSendMessage_failed env w Hb Hl Hfail) as [error Hrun].
  unfold effectsOf. rewrite Hrun. cbn [snd log chat messages].
  split; [|split].
  - rewrite <- !app_assoc, drop_app_length. reflexivity.
  - eexists. rewrite last_snoc. split; reflexivity.
  - intros result Hres Hup. rewrite Hup, (live_not_failed result Hres) in Hfail.
    discriminate.
Qed.

Lemma fallback_only_after_failure_witness :
  failed Rejects = true
  /\ networkCalls
       (effectsOf
          {| sentAt := {| now := 1000; date := 1000 |};
             upstream := Rejects;
             repliedAt := {| now := 1040; date := 1041 |} |}
          {| chat := {| messages := []; inputValue := utf16 "binary search";
                        isLoading := false |};
             log := [] |}) = 1%nat.
Proof.
  destruct (fallback_only_after_failure
              {| sentAt := {| now := 1000; date := 1000 |};
                 upstream := Rejects;
                 repliedAt := {| now := 1040; date := 1041 |} |}
              {| chat := {| messages := []; inputValue := utf16 "binary search";
                            isLoading := false |};
                 log := [] |})
    as (Hfail & Hcalls & _).
  - vm_compute; reflexivity.
  - split; [exact Hfail | exact Hcalls].
Defined.

(** ** The course form *)

Import CourseForm.

Lemma handleSubmit_state (st : FormState) : fst (handleSubmit st) = st.
Proof.
  unfold handleSubmit. cbv zeta.
  destruct (negb _); [reflexivity|].
  destruct (showNonCSEWarning st); reflexivity.
Qed.

Lemma isNonCSE_empty : isNonCSE [] = false.
Proof. vm_compute. reflexivity. Qed.

(** The warning flag always reflects the custom topic on screen. *)
Lemma warning_tracks_topic (st : FormState) :
  reachable st -> showNonCSEWarning st = isNonCSE (customTopic st).
Proof.
  induction 1 as [|ev st Hst IH].
  - symmetry. exact isNonCSE_empty.
  - destruct ev; cbn [dispatch fst]; try exact IH.
    + cbn [handleSubjectSelect showNonCSEWarning customTopic].
      symmetry. exact isNonCSE_empty.
    + reflexivity.
    + rewrite handleSubmit_state. exact IH.
Qed.

Lemma isNonCSE_keyword (topic : jsstring) :
  isNonCSE topic = true <->
  exists keyword, In keyword nonCSEKeywords
                  /\ includes (toLowerCase topic) keyword = true.
Proof. unfold isNonCSE. apply existsb_exists. Qed.

(** C10: in every state the form can reach, a submit whose course name is
    empty or all white space, or whose custom topic contains one of the
    non-CSE keywords in any letter case, does not call [onSubmit] and
    leaves every state cell as it was. *)
Theorem submit_blocked_for_blank_or_non_cse (st : FormState) :
  reachable st ->
  blank (orElse (selectedSubject st) (customTopic st)) = true
  \/ (exists keyword, In keyword nonCSEKeywords
                      /\ includes (toLowerCase (customTopic st)) keyword = true) ->
  handleSubmit st = (st, [PreventDefault])
  /\ invokesOnSubmit (snd (handleSubmit st)) = false
  /\ fst (dispatch FormSubmit st) = st.
Proof.
  intros Hreach Hbad.
  assert (Hrun : handleSubmit st = (st, [PreventDefault])).
  { unfold handleSubmit. cbv zeta.
    destruct Hbad as [Hblank | Hkw].
    - apply trim_falsy_iff_blank in Hblank. rewrite Hblank. reflexivity.
    - apply isNonCSE_keyword in Hkw.
      rewrite (warning_tracks_topic st Hreach), Hkw.
      destruct (negb _); reflexivity. }
  split; [exact Hrun|].
  cbn [dispatch]. rewrite Hrun. split; reflexivity.
Qed.

Lemma submit_blocked_for_blank_or_non_cse_witness :
  handleSubmit (fst (dispatch (CustomTopicInput (utf16 "Marine BIOLOGY basics")) initialForm))
  = (fst (dispatch (CustomTopicInput (utf16 "Marine BIOLOGY basics")) initialForm),
     [PreventDefault])
  /\ handleSubmit initialForm = (initialForm, [PreventDefault]).
Proof.
  split.
  - apply submit_blocked_for_blank_or_non_cse.
    + apply reachable_step, reachable_init.
    + right. exists (utf16 "biology"). split; vm_compute; auto.
  - apply submit_blocked_for_blank_or_non_cse.
    + apply reachable_init.
    + left. reflexivity.
Defined.

(** ** The gateway contract *)

Import Gateway.

(** C7: [resolve] returns the configured descriptor of every name in the
    registry and fails with [UnknownServiceError] on every other name; no
    request the running gateway serves changes the registry. *)
Theorem registry_resolve_total (reg : gmap string ServiceDescriptor) (svc : string) :
  (forall d, reg !! svc = Some d -> resolve reg svc = inr d)
  /\ (reg !! svc = None -> resolve reg svc = inl UnknownServiceError)
  /\ (forall rs g, registry (run rs g) = registry g).
Proof.
  unfold resolve. split; [|split].
  - intros d H. rewrite H. reflexivity.
  - intros H. rewrite H. reflexivity.
  - intros rs. unfold run.
    induction rs as [|r rs IH]; intros g; [reflexivity|].
    cbn [fold_left]. rewrite IH.
    destruct r as [s|s|s now text live]; cbn [serve]; try reflexivity.
    unfold route.
    destruct (resolve (registry g) s); [reflexivity|].
    destruct (credentialFor (keys g) s); [reflexivity|].
    destruct (call _ _ _ _) as [[c' src] n]. reflexivity.
Qed.

Lemma registry_resolve_total_witness :
  resolve
    {[ "course-service"%string :=
         {| name := "course-service"; baseURL := "http://localhost:8001";
            healthPath := "/health"; timeoutMs := 30000; maxRetries := 2 |} ]}
    "course-service"
  = inr {| name := "course-service"; baseURL := "http://localhost:8001";
           healthPath := "/health"; timeoutMs := 30000; maxRetries := 2 |}
  /\ resolve
       {[ "course-service"%string :=
            {| name := "course-service"; baseURL := "http://localhost:8001";
               healthPath := "/health"; timeoutMs := 30000; maxRetries := 2 |} ]}
       "unknown"
     = inl UnknownServiceError.
Proof.
  split.
  - apply registry_resolve_total. apply lookup_singleton_eq.
  - apply registry_resolve_total. apply lookup_singleton_ne. discriminate.
Defined.

(** C6: the resolver returns the service's own key when one exists and is
    non-empty, the default key otherwise, and fails with
    [MissingCredentialError] exactly when there is neither a non-empty
    override nor a default key. *)
Theorem credential_resolution (cfg : KeyConfig) (svc : string) :
  (forall k, overrideKeys cfg !! svc = Some k -> nonEmpty k = true ->
             credentialFor cfg svc = inr k)
  /\ (forall k0, hasOverride cfg svc = false -> defaultKey cfg = Some k0 ->
                 credentialFor cfg svc = inr k0)
  /\ (credentialFor cfg svc = inl MissingCredentialError <->
      hasOverride cfg svc = false /\ defaultKey cfg = None).
Proof.
  unfold credentialFor, hasOverride.
  split; [|split].
  - intros k Hk Hne. rewrite Hk, Hne. reflexivity.
  - intros k0 Hov Hdef.
    destruct (overrideKeys cfg !! svc) as [k|]; [rewrite Hov|]; rewrite Hdef; reflexivity.
  - destruct (overrideKeys cfg !! svc) as [k|]; [destruct (nonEmpty k)|];
      destruct (defaultKey cfg); split;
      try (intros [? ?]); try intros ?; try discriminate; auto.
Qed.

Lemma credential_resolution_witness :
  credentialFor {| defaultKey := Some "gsk-default"%string;
                   overrideKeys := {[ "course-service"%string := "gsk-course"%string ]} |}
                "course-service" = inr "gsk-course"%string
  /\ credentialFor {| defaultKey := Some "gsk-default"%string;
                      overrideKeys := {[ "course-service"%string := EmptyString ]} |}
                   "course-service" = inr "gsk-default"%string
  /\ credentialFor {| defaultKey := None; overrideKeys := ∅ |} "profile-service"
     = inl MissingCredentialError.
Proof.
  split; [|split].
  - apply (proj1 (credential_resolution _ _));
      [apply lookup_singleton_eq | reflexivity].
  - apply (proj1 (proj2 (credential_resolution _ _))); [|reflexivity].
    unfold hasOverride. cbn [overrideKeys]. rewrite lookup_singleton_eq. reflexivity.
  - apply (proj2 (proj2 (credential_resolution _ _))). split; [|reflexivity].
    unfold hasOverride. cbn [overrideKeys]. rewrite lookup_empty. reflexivity.
Defined.

Lemma failures_closed (pol : Policy) (now : N) (n : nat) :
  (n < threshold pol)%nat ->
  failures pol now n closedCircuit
  = {| status := CLOSED; consecutiveFailures := n; openedAt := 0 |}.
Proof.
  induction n as [|n IH]; intros Hn; [reflexivity|].
  cbn [failures]. rewrite IH by lia.
  unfold call, permit, report. cbn [status consecutiveFailures openedAt fst].
  destruct (Nat.leb_spec (threshold pol) (S n)); [lia | reflexivity].
Qed.

Lemma failures_open (pol : Policy) (now : N) :
  (0 < threshold pol)%nat ->
  failures pol now (threshold pol) closedCircuit
  = {| status := OPEN; consecutiveFailures := threshold pol; openedAt := now |}.
Proof.
  intros Hpos. destruct (threshold pol) as [|n] eqn:Hth; [lia|].
  cbn [failures]. rewrite failures_closed by lia.
  unfold call, permit, report. cbn [status consecutiveFailures openedAt fst].
  rewrite Hth, Nat.leb_refl. reflexivity.
Qed.

(** C3: the circuit of a service.  In CLOSED a failed call adds one to
    [consecutiveFailures] and the circuit is OPEN afterwards exactly when
    the count has reached the threshold, so that [threshold] failures in a
    row open a fresh circuit.  In OPEN, within the cool-down, a call is
    answered from the fallback with no network attempt and no change.
    After the cool-down the next call is the one HALF_OPEN probe, with one
    network attempt, while any other call meanwhile is short-circuited; a
    successful probe gives CLOSED with the count at 0, a failed one gives
    OPEN with the cool-down started at the time of the probe. *)
Theorem circuit_state_machine (pol : Policy) (now : N) (c : Circuit) :
  (status c = CLOSED ->
     let c' := fst (fst (call pol now false c)) in
     consecutiveFailures c' = S (consecutiveFailures c)
     /\ (status c' = OPEN <-> (threshold pol <= S (consecutiveFailures c))%nat)
     /\ (status c' = CLOSED <-> (S (consecutiveFailures c) < threshold pol)%nat)
     /\ ((0 < threshold pol)%nat ->
         status (failures pol now (threshold pol) closedCircuit) = OPEN
         /\ forall n, (n < threshold pol)%nat ->
                      status (failures pol now n closedCircuit) = CLOSED))
  /\ (status c = OPEN -> now < openedAt c + coolDown pol ->
      forall success, call pol now success c = (c, FALLBACK, 0%nat))
  /\ (status c = OPEN -> openedAt c + coolDown pol <= now ->
      let probing := {| status := HALF_OPEN;
                        consecutiveFailures := consecutiveFailures c;
                        openedAt := openedAt c |} in
      permit pol now c = (PassThrough, probing)
      /\ (forall later success, call pol later success probing = (probing, FALLBACK, 0%nat))
      /\ call pol now true c
         = ({| status := CLOSED; consecutiveFailures := 0; openedAt := openedAt c |},
            LIVE, 1%nat)
      /\ (exists n, call pol now false c
                    = ({| status := OPEN; consecutiveFailures := n; openedAt := now |},
                       FALLBACK, 1%nat))).
Proof.
  split; [|split].
  - intros Hc. cbv zeta. unfold call, permit, report. rewrite Hc.
    cbn [status fst]. rewrite Hc.
    split; [|split; [|split]].
    + destruct (Nat.leb_spec (threshold pol) (S (consecutiveFailures c))); reflexivity.
    + destruct (Nat.leb_spec (threshold pol) (S (consecutiveFailures c)));
        cbn [status]; split; intros; try reflexivity; try discriminate; lia.
    + destruct (Nat.leb_spec (threshold pol) (S (consecutiveFailures c)));
        cbn [status]; split; intros; try reflexivity; try discriminate; lia.
    + intros Hpos. split.
      * rewrite failures_open by exact Hpos. reflexivity.
      * intros n Hn. rewrite failures_closed by exact Hn. reflexivity.
  - intros Hc Hwin success. unfold call, permit. rewrite Hc.
    apply N.ltb_lt in Hwin. rewrite Hwin. reflexivity.
  - intros Hc Hcool. cbv zeta.
    assert (Hlt : (now <? openedAt c + coolDown pol) = false)
      by (apply N.ltb_ge; exact Hcool).
    unfold call, permit, report. rewrite Hc, Hlt. cbn [status consecutiveFailures openedAt].
    repeat split. eexists. reflexivity.
Qed.

Lemma circuit_state_machine_witness :
  status (fst (fst (call {| threshold := 3; coolDown := 5000 |} 1000 false
                         {| status := CLOSED; consecutiveFailures := 2; openedAt := 0 |})))
  = OPEN
  /\ call {| threshold := 3; coolDown := 5000 |} 2000 true
          {| status := OPEN; consecutiveFailures := 3; openedAt := 1000 |}
     = ({| status := OPEN; consecutiveFailures := 3; openedAt := 1000 |}, FALLBACK, 0%nat)
  /\ call {| threshold := 3; coolDown := 5000 |} 6000 true
          {| status := OPEN; consecutiveFailures := 3; openedAt := 1000 |}
     = ({| status := CLOSED; consecutiveFailures := 0; openedAt := 1000 |}, LIVE, 1%nat).
Proof.
  split; [|split].
  - pose proof (proj1 (circuit_state_machine
                         {| threshold := 3; coolDown := 5000 |} 1000
                         {| status := CLOSED; consecutiveFailures := 2; openedAt := 0 |})
                      eq_refl) as H.
    cbv zeta in H. destruct H as (_ & Hopen & _).
    apply Hopen. cbn [threshold consecutiveFailures]. lia.
  - apply (proj1 (proj2 (circuit_state_machine
                           {| threshold := 3; coolDown := 5000 |} 2000
                           {| status := OPEN; consecutiveFailures := 3; openedAt := 1000 |})));
      [reflexivity | reflexivity].
  - apply (proj2 (proj2 (circuit_state_machine
                           {| threshold := 3; coolDown := 5000 |} 6000
                           {| status := OPEN; consecutiveFailures := 3; openedAt := 1000 |})));
      [reflexivity | vm_compute; discriminate].
Defined.

(** ** Further properties of the chatbot widget *)

Import ChatWidget.

Lemma sendDisabled_guard (st : ChatState) :
  sendDisabled st = true <-> blank (inputValue st) = true \/ isLoading st = true.
Proof.
  unfold sendDisabled. rewrite orb_true_iff, negb_true_iff, trim_falsy_iff_blank.
  reflexivity.
Qed.

Lemma sendDisabled_open (st : ChatState) :
  sendDisabled st = false <-> blank (inputValue st) = false /\ isLoading st = false.
Proof.
  unfold sendDisabled. rewrite orb_false_iff, negb_false_iff, trim_truthy_iff_not_blank.
  reflexivity.
Qed.

(** The world after a send that went through, whatever the service did. *)
Lemma handleSendMessage_accepted (env : Env) (w : World) :
  sendDisabled (chat w) = false ->
  exists (botContent : Json) (more : list Effect),
    handleSendMessage env w =
      (Normal tt,
       {| chat :=
            {| messages :=
                 messages (chat w)
                 ++ [ userMessageOf env (chat w);
                      {| id := toString (now (repliedAt env) + 1);
                         content := botContent;
                         isBot := true;
                         timestamp := date (repliedAt env) |} ];
               inputValue := [];
               isLoading := false |};
          log := log w
                 ++ NetworkCall
                      {| url := utf16 "http://localhost:8002/chat";
                         method := utf16 "POST";
                         contentType := utf16 "application/json";
                         message := inputValue (chat w);
                         context := utf16 "dsa_learning" |} :: more |})
    /\ networkCalls more = 0%nat.
Proof.
  intros Hopen. apply sendDisabled_open in Hopen as [Hb Hl].
  destruct (failed_or_live (upstream env)) as [Hfail | (result & Hup & Hres)].
  - destruct (handleSendMessage_failed env w Hb Hl Hfail) as [error Hrun].
    eexists _, [_; _]. rewrite Hrun.
    split; [rewrite <- !app_assoc; reflexivity | reflexivity].
  - rewrite (handleSendMessage_live env w result Hb Hl Hup Hres).
    eexists _, [].
    split; [rewrite <- !app_assoc; reflexivity | reflexivity].
Qed.

(** X1: a send leaves the widget in a state in which a further send does
    nothing, so pressing send twice never sends twice. *)
Theorem second_send_does_nothing (env1 env2 : Env) (w : World) :
  handleSendMessage env2 (snd (handleSendMessage env1 w))
  = (Normal tt, snd (handleSendMessage env1 w)).
Proof.
  destruct (sendDisabled (chat w)) eqn:Hd.
  - apply sendDisabled_guard in Hd.
    rewrite (handleSendMessage_guarded env1 w Hd). cbn [snd].
    apply handleSendMessage_guarded. exact Hd.
  - destruct (handleSendMessage_accepted env1 w Hd) as (c & more & Hrun & _).
    rewrite Hrun. cbn [snd].
    apply handleSendMessage_guarded. left. reflexivity.
Qed.

(** X2: the send button is disabled exactly in the states in which the
    handler changes nothing: neither the widget state nor the log. *)
Theorem send_button_matches_handler (env : Env) (w : World) :
  sendDisabled (chat w) = true <-> snd (handleSendMessage env w) = w.
Proof.
  split.
  - intros Hd. apply sendDisabled_guard in Hd.
    rewrite (handleSendMessage_guarded env w Hd). reflexivity.
  - intros Hsame. destruct (sendDisabled (chat w)) eqn:Hd; [reflexivity|].
    destruct (handleSendMessage_accepted env w Hd) as (c & more & Hrun & _).
    rewrite Hrun in Hsame. cbn [snd] in Hsame.
    apply (f_equal (fun w => length (log w))) in Hsame.
    cbn [log] in Hsame. rewrite length_app in Hsame. cbn [length] in Hsame. lia.
Qed.

Lemma send_button_matches_handler_witness :
  snd (handleSendMessage
         {| sentAt := {| now := 1000; date := 1000 |};
            upstream := Rejects;
            repliedAt := {| now := 1040; date := 1041 |} |}
         {| chat := {| messages := []; inputValue := utf16 " "; isLoading := false |};
            log := [] |})
  = {| chat := {| messages := []; inputValue := utf16 " "; isLoading := false |};
       log := [] |}.
Proof.
  apply send_button_matches_handler. reflexivity.
Defined.

(** X3: a send never drops or reorders what was said: the old messages
    are the beginning of the new list, which has two more messages when
    the send went through and none otherwise; afterwards the input field
    is empty and the loading flag is down again. *)
Theorem send_extends_history (env : Env) (w : World) :
  let w' := snd (handleSendMessage env w) in
  take (length (messages (chat w))) (messages (chat w')) = messages (chat w)
  /\ length (messages (chat w'))
     = (length (messages (chat w)) + if sendDisabled (chat w) then 0 else 2)%nat
  /\ inputValue (chat w')
     = (if sendDisabled (chat w) then inputValue (chat w) else [])
  /\ isLoading (chat w')
     = (if sendDisabled (chat w) then isLoading (chat w) else false).
Proof.
  cbv zeta. destruct (sendDisabled (chat w)) eqn:Hd.
  - apply sendDisabled_guard in Hd.
    rewrite (handleSendMessage_guarded env w Hd). cbn [snd].
    rewrite firstn_all, Nat.add_0_r. auto.
  - destruct (handleSendMessage_accepted env w Hd) as (c & more & Hrun & _).
    rewrite Hrun. cbn [snd chat messages inputValue isLoading].
    rewrite take_app_length, length_app. auto.
Qed.

(** X4: a send that goes through makes exactly one network call, first of
    its effects: a POST to the chat endpoint whose message is the input
    as typed, not trimmed, the same text the user message shows. *)
Theorem send_posts_raw_input (env : Env) (w : World) :
  sendDisabled (chat w) = false ->
  exists more,
    effectsOf env w
    = NetworkCall {| url := utf16 "http://localhost:8002/chat";
                     method := utf16 "POST";
                     contentType := utf16 "application/json";
                     message := inputValue (chat w);
                     context := utf16 "dsa_learning" |} :: more
    /\ networkCalls (effectsOf env w) = 1%nat
    /\ (exists bot,
          drop (length (messages (chat w)))
               (messages (chat (snd (handleSendMessage env w))))
          = [ {| id := toString (now (sentAt env));
                 content := JString (inputValue (chat w));
                 isBot := false;
                 timestamp := date (sentAt env) |}; bot ]).
Proof.
  intros Hd.
  destruct (handleSendMessage_accepted env w Hd) as (c & more & Hrun & Hmore).
  exists more. unfold effectsOf. rewrite Hrun. cbn [snd log chat messages].
  rewrite !drop_app_length. split; [reflexivity|].
  split.
  - unfold networkCalls in *. cbn [List.filter length]. rewrite Hmore. reflexivity.
  - eexists. reflexivity.
Qed.

Lemma send_posts_raw_input_witness :
  exists more,
    effectsOf
      {| sentAt := {| now := 1000; date := 1000 |};
         upstream := Rejects;
         repliedAt := {| now := 1040; date := 1041 |} |}
      {| chat := {| messages := []; inputValue := utf16 "  heaps "; isLoading := false |};
         log := [] |}
    = NetworkCall {| url := utf16 "http://localhost:8002/chat";
                     method := utf16 "POST";
                     contentType := utf16 "application/json";
                     message := utf16 "  heaps ";
                     context := utf16 "dsa_learning" |} :: more.
Proof.
  destruct (send_posts_raw_input
              {| sentAt := {| now := 1000; date := 1000 |};
                 upstream := Rejects;
                 repliedAt := {| now := 1040; date := 1041 |} |}
              {| chat := {| messages := []; inputValue := utf16 "  heaps ";
                            isLoading := false |};
                 log := [] |})
    as (more & Heff & _).
  - vm_compute; reflexivity.
  - exists more. exact Heff.
Defined.

(** X5: when the status is outside 2xx the body is never read: two
    responses that differ only in their bodies leave the same world, with
    the fallback answer as the bot message. *)
Theorem not_ok_ignores_body (sent replied : Clock) (body1 body2 : Body) (w : World) :
  handleSendMessage
    {| sentAt := sent; upstream := Resolves false body1; repliedAt := replied |} w
  = handleSendMessage
      {| sentAt := sent; upstream := Resolves false body2; repliedAt := replied |} w.
Proof.
  unfold handleSendMessage, sendMessage.
  destruct (negb (truthy (trim (inputValue (chat w)))) || isLoading (chat w));
    [reflexivity|].
  destruct w as [[ms input loading] lg].
  run_handler. reflexivity.
Qed.


Lemma ascii7_utf16_cons (a : ascii) (s : string) :
  (N_of_ascii a <? 128) = true -> utf16 (String a s) = N_of_ascii a :: utf16 s.
Proof. intros H. cbn [utf16]. rewrite H. reflexivity. Qed.

Lemma utf16_ascii7_inj (s1 s2 : string) :
  ascii7 s1 = true -> ascii7 s2 = true -> utf16 s1 = utf16 s2 -> s1 = s2.
Proof.
  revert s2. induction s1 as [|a s1 IH]; intros [|b s2] H1 H2 Heq.
  - reflexivity.
  - cbn [ascii7] in H2. apply andb_true_iff in H2 as [Hb _].
    rewrite (ascii7_utf16_cons b s2 Hb) in Heq. discriminate.
  - cbn [ascii7] in H1. apply andb_true_iff in H1 as [Ha _].
    rewrite (ascii7_utf16_cons a s1 Ha) in Heq. discriminate.
  - cbn [ascii7] in H1, H2.
    apply andb_true_iff in H1 as [Ha H1]. apply andb_true_iff in H2 as [Hb H2].
    rewrite (ascii7_utf16_cons a s1 Ha), (ascii7_utf16_cons b s2 Hb) in Heq.
    injection Heq as Hab Hrest.
    f_equal; [|apply IH; assumption].
    rewrite <- (ascii_N_embedding a), <- (ascii_N_embedding b), Hab. reflexivity.
Qed.

Lemma pretty_N_char_ascii7 (x : N) : (N_of_ascii (pretty_N_char x) <? 128) = true.
Proof.
  unfold pretty_N_char.
  repeat match goal with
         | |- context [match ?p with _ => _ end] => destruct p
         end; reflexivity.
Qed.

Lemma pretty_N_go_ascii7 (x : N) (s : string) :
  ascii7 s = true -> ascii7 (pretty_N_go x s) = true.
Proof.
  revert s. induction x as [x IH] using (well_founded_induction N.lt_wf_0).
  intros s Hs. destruct (N.eq_dec x 0) as [->|Hx].
  - rewrite pretty_N_go_0. exact Hs.
  - rewrite pretty_N_go_step by lia.
    apply IH.
    + apply N.div_lt; lia.
    + cbn [ascii7]. rewrite pretty_N_char_ascii7, Hs. reflexivity.
Qed.

Lemma pretty_N_ascii7 (n : N) : ascii7 (pretty n) = true.
Proof.
  unfold pretty, pretty_N. case_decide; [reflexivity|].
  apply pretty_N_go_ascii7. reflexivity.
Qed.

Lemma toString_inj (a b : N) : toString a = toString b -> a = b.
Proof.
  unfold toString. intros H.
  apply utf16_ascii7_inj in H; [|apply pretty_N_ascii7..].
  apply (inj pretty). exact H.
Qed.

(** X6: with a clock that does not run backwards between the send and
    the answer, the two messages of an exchange get different ids. *)
Theorem exchange_ids_differ (env : Env) (w : World) :
  sendDisabled (chat w) = false ->
  now (sentAt env) <= now (repliedAt env) ->
  exists user bot,
    drop (length (messages (chat w)))
         (messages (chat (snd (handleSendMessage env w)))) = [user; bot]
    /\ id user = toString (now (sentAt env))
    /\ id bot = toString (now (repliedAt env) + 1)
    /\ id user <> id bot.
Proof.
  intros Hd Hclock.
  destruct (handleSendMessage_accepted env w Hd) as (c & more & Hrun & _).
  rewrite Hrun. cbn [snd chat messages]. rewrite drop_app_length.
  eexists _, _. split; [reflexivity|].
  cbn [userMessageOf id]. split; [reflexivity|]. split; [reflexivity|].
  intros Heq. apply toString_inj in Heq. lia.
Qed.

Lemma exchange_ids_differ_witness :
  exists user bot,
    drop 0
      (messages (chat (snd (handleSendMessage
         {| sentAt := {| now := 1000; date := 1000 |};
            upstream := Rejects;
            repliedAt := {| now := 1000; date := 1000 |} |}
         {| chat := {| messages := []; inputValue := utf16 "heaps"; isLoading := false |};
            log := [] |})))) = [user; bot]
    /\ id user <> id bot.
Proof.
  destruct (exchange_ids_differ
              {| sentAt := {| now := 1000; date := 1000 |};
                 upstream := Rejects;
                 repliedAt := {| now := 1000; date := 1000 |} |}
              {| chat := {| messages := []; inputValue := utf16 "heaps";
                            isLoading := false |};
                 log := [] |})
    as (user & bot & Hmsgs & _ & _ & Hne).
  - vm_compute; reflexivity.
  - cbn [now sentAt repliedAt]. lia.
  - exists user, bot. split; [exact Hmsgs | exact Hne].
Defined.

Lemma handleSendMessage_normal (env : Env) (w : World) :
  fst (handleSendMessage env w) = Normal tt.
Proof.
  destruct (sendDisabled (chat w)) eqn:Hd.
  - apply sendDisabled_guard in Hd.
    rewrite (handleSendMessage_guarded env w Hd). reflexivity.
  - destruct (handleSendMessage_accepted env w Hd) as (c & more & Hrun & _).
    rewrite Hrun. reflexivity.
Qed.

(** X7: a key press sends only when the key is Enter and Shift is up: it
    then does what a click on the send button does and cancels the
    default action; any other key press, Shift+Enter included, changes
    neither the widget nor the event. *)
Theorem key_press_sends_on_plain_enter (e : KeyboardEvent) (env : Env) (w : World) :
  (key e = utf16 "Enter" /\ shiftKey e = false ->
     handleKeyPress e env w
     = (Normal (preventDefault e), snd (handleSendMessage env w)))
  /\ (key e <> utf16 "Enter" \/ shiftKey e = true ->
     handleKeyPress e env w = (Normal e, w)).
Proof.
  unfold handleKeyPress. split.
  - intros [Hkey Hshift].
    rewrite (bool_decide_eq_true_2 _ Hkey), Hshift. cbn [negb andb]. cbv zeta.
    unfold mbind, M_bind, mret, M_ret.
    pose proof (handleSendMessage_normal env w) as Hn.
    destruct (handleSendMessage env w) as [c w']. cbn [fst] in Hn. subst c.
    reflexivity.
  - intros [Hkey | Hshift].
    + rewrite (bool_decide_eq_false_2 _ Hkey). reflexivity.
    + rewrite Hshift, andb_false_r. reflexivity.
Qed.

Lemma key_press_sends_on_plain_enter_witness :
  handleKeyPress {| key := utf16 "Enter"; shiftKey := true; defaultPrevented := false |}
    {| sentAt := {| now := 1000; date := 1000 |};
       upstream := Rejects;
       repliedAt := {| now := 1040; date := 1041 |} |}
    {| chat := {| messages := []; inputValue := utf16 "heaps"; isLoading := false |};
       log := [] |}
  = (Normal {| key := utf16 "Enter"; shiftKey := true; defaultPrevented := false |},
     {| chat := {| messages := []; inputValue := utf16 "heaps"; isLoading := false |};
        log := [] |})
  /\ fst (handleKeyPress
            {| key := utf16 "Enter"; shiftKey := false; defaultPrevented := false |}
            {| sentAt := {| now := 1000; date := 1000 |};
               upstream := Rejects;
               repliedAt := {| now := 1040; date := 1041 |} |}
            {| chat := initialState 0; log := [] |})
     = Normal {| key := utf16 "Enter"; shiftKey := false; defaultPrevented := true |}.
Proof.
  split.
  - apply key_press_sends_on_plain_enter. right. reflexivity.
  - rewrite (proj1 (key_press_sends_on_plain_enter _ _ _)); [reflexivity|].
    split; reflexivity.
Defined.

Lemma exchanges_app_aux (l : list Message) :
  (exchanges l = true -> forall l', exchanges (l ++ l') = exchanges l')
  /\ (forall u, exchanges (u :: l) = true ->
                forall l', exchanges ((u :: l) ++ l') = exchanges l').
Proof.
  induction l as [|b l [IH1 IH2]].
  - split; [reflexivity|]. intros u H. discriminate.
  - split; [apply IH2|].
    intros u H l'. cbn [exchanges app] in *.
    destruct (negb (isBot u) && isBot b); [|discriminate].
    cbn [andb] in *. apply IH1. exact H.
Qed.

Lemma exchanges_snoc (l : list Message) (u b : Message) :
  exchanges l = true -> isBot u = false -> isBot b = true ->
  exchanges (l ++ [u; b]) = true.
Proof.
  intros Hl Hu Hb. rewrite (proj1 (exchanges_app_aux l) Hl).
  cbn [exchanges]. rewrite Hu, Hb. reflexivity.
Qed.

Lemma networkCalls_app (l1 l2 : list Effect) :
  networkCalls (l1 ++ l2) = (networkCalls l1 + networkCalls l2)%nat.
Proof. unfold networkCalls. rewrite List.filter_app, length_app. reflexivity. Qed.

Lemma userMessages_app (l1 l2 : list Message) :
  userMessages (l1 ++ l2) = (userMessages l1 + userMessages l2)%nat.
Proof. unfold userMessages. rewrite List.filter_app, length_app. reflexivity. Qed.

(** The first half of a send: nothing at a closed guard, otherwise the
    user's message, an empty field, the loading flag and the call. *)
Lemma sendStart_run (sent : Clock) (w : World) :
  sendStart sent (inputValue (chat w)) (isLoading (chat w)) w
  = if sendDisabled (chat w) then (Normal false, w)
    else (Normal true,
          {| chat :=
               {| messages :=
                    messages (chat w)
                    ++ [ {| id := toString (now sent);
                            content := JString (inputValue (chat w));
                            isBot := false;
                            timestamp := date sent |} ];
                  inputValue := [];
                  isLoading := true |};
             log := log w
                    ++ [ NetworkCall
                           {| url := utf16 "http://localhost:8002/chat";
                              method := utf16 "POST";
                              contentType := utf16 "application/json";
                              message := inputValue (chat w);
                              context := utf16 "dsa_learning" |} ] |}).
Proof.
  unfold sendStart, sendDisabled.
  destruct (negb (truthy (trim (inputValue (chat w)))) || isLoading (chat w));
    [reflexivity|].
  destruct w as [[ms input loading] lg]. run_handler. reflexivity.
Qed.

(** The second half of a send: one bot message, the loading flag down,
    no further call. *)
Lemma sendSettle_run (up : Upstream) (replied : Clock) (input : jsstring) (w : World) :
  exists (botContent : Json) (more : list Effect),
    sendSettle up replied input w
    = (Normal tt,
       {| chat :=
            {| messages :=
                 messages (chat w)
                 ++ [ {| id := toString (now replied + 1);
                         content := botContent;
                         isBot := true;
                         timestamp := date replied |} ];
               inputValue := inputValue (chat w);
               isLoading := false |};
          log := log w ++ more |})
    /\ networkCalls more = 0%nat
    /\ truthyJson botContent = true.
Proof.
  unfold sendSettle.
  destruct w as [[ms cur loading] lg].
  destruct up as [|[|] [|result]].
  - eexists _, [_; _]. cbv [settled]. run_handler. rewrite <- !app_assoc.
    split; [reflexivity|]. split; [reflexivity|].
    apply getFallbackResponse_truthy.
  - eexists _, [_; _]. cbv [settled]. run_handler. rewrite <- !app_assoc.
    split; [reflexivity|]. split; [reflexivity|].
    apply getFallbackResponse_truthy.
  - destruct result.
    + eexists _, [_; _]. cbv [settled]. run_handler. rewrite <- !app_assoc.
      split; [reflexivity|]. split; [reflexivity|].
      apply getFallbackResponse_truthy.
    + exists (orDefault None rephraseText), []. cbv [settled]. run_handler.
      rewrite app_nil_r.
      split; [reflexivity|]. split; [reflexivity | exact rephraseText_truthy].
    + exists (orDefault None rephraseText), []. cbv [settled]. run_handler.
      rewrite app_nil_r.
      split; [reflexivity|]. split; [reflexivity | exact rephraseText_truthy].
    + exists (orDefault None rephraseText), []. cbv [settled]. run_handler.
      rewrite app_nil_r.
      split; [reflexivity|]. split; [reflexivity | exact rephraseText_truthy].
    + exists (orDefault None rephraseText), []. cbv [settled]. run_handler.
      rewrite app_nil_r.
      split; [reflexivity|]. split; [reflexivity | exact rephraseText_truthy].
    + exists (orDefault (member (utf16 "response") members) rephraseText), [].
      cbv [settled]. run_handler. rewrite app_nil_r.
      split; [reflexivity|]. split; [reflexivity|].
      apply orDefault_rephrase_truthy.
  - eexists _, [_; _]. cbv [settled]. run_handler. rewrite <- !app_assoc.
    split; [reflexivity|]. split; [reflexivity|].
    apply getFallbackResponse_truthy.
  - eexists _, [_; _]. cbv [settled]. run_handler. rewrite <- !app_assoc.
    split; [reflexivity|]. split; [reflexivity|].
    apply getFallbackResponse_truthy.
Qed.

(** The two halves, one right after the other, are the handler. *)
Lemma handleSendMessage_two_halves (env : Env) (w : World) :
  handleSendMessage env w
  = (started ← sendStart (sentAt env) (inputValue (chat w)) (isLoading (chat w));
     if started : bool
     then sendSettle (upstream env) (repliedAt env) (inputValue (chat w))
     else mret tt) w.
Proof.
  unfold handleSendMessage, sendMessage, sendStart, sendSettle.
  destruct (negb (truthy (trim (inputValue (chat w)))) || isLoading (chat w));
    [reflexivity|].
  destruct w as [[ms input loading] lg].
  destruct (upstream env) as [|ok body]; cbv [settled]; run_handler; reflexivity.
Qed.

(** What the widget keeps true: at most one call is under way; while one
    is, the loading flag is up and the last message is the user's, not
    yet answered; the calls made are as many as the user's messages. *)
Lemma widget_invariant (mountedAt : N) (wd : Widget) :
  reachable mountedAt wd ->
  networkCalls (log (world wd)) = userMessages (messages (chat (world wd)))
  /\ match pending wd with
     | [] =>
         isLoading (chat (world wd)) = false
         /\ exists tail,
              messages (chat (world wd))
              = {| id := utf16 "1"; content := JString greetingText;
                   isBot := true; timestamp := mountedAt |} :: tail
              /\ exchanges tail = true
     | [input] =>
         isLoading (chat (world wd)) = true
         /\ exists answered user,
              messages (chat (world wd))
              = {| id := utf16 "1"; content := JString greetingText;
                   isBot := true; timestamp := mountedAt |} :: answered ++ [user]
              /\ exchanges answered = true
              /\ isBot user = false
              /\ content user = JString input
     | _ => False
     end.
Proof.
  induction 1 as [|ev wd Hreach [Hcalls Hshape]].
  - split; [reflexivity|]. split; [reflexivity|]. exists []. split; reflexivity.
  - destruct wd as [w pend]. cbn [world pending] in *.
    assert (Hstart : forall sent,
      networkCalls (log (world (start sent {| world := w; pending := pend |})))
      = userMessages (messages (chat (world (start sent {| world := w; pending := pend |}))))
      /\ match pending (start sent {| world := w; pending := pend |}) with
         | [] =>
             isLoading (chat (world (start sent {| world := w; pending := pend |}))) = false
             /\ exists tail,
                  messages (chat (world (start sent {| world := w; pending := pend |})))
                  = {| id := utf16 "1"; content := JString greetingText;
                       isBot := true; timestamp := mountedAt |} :: tail
                  /\ exchanges tail = true
         | [input] =>
             isLoading (chat (world (start sent {| world := w; pending := pend |}))) = true
             /\ exists answered user,
                  messages (chat (world (start sent {| world := w; pending := pend |})))
                  = {| id := utf16 "1"; content := JString greetingText;
                       isBot := true; timestamp := mountedAt |} :: answered ++ [user]
                  /\ exchanges answered = true
                  /\ isBot user = false
                  /\ content user = JString input
         | _ => False
         end).
    { intros sent. unfold start. cbn [world pending].
      rewrite sendStart_run. unfold sendDisabled.
      destruct pend as [|input [|? ?]]; [| |contradiction].
      - destruct Hshape as (Hload & tail & Hms & Hex). rewrite Hload, orb_false_r.
        destruct (negb (truthy (trim (inputValue (chat w))))).
        + cbn [world pending]. split; [exact Hcalls|]. split; [exact Hload|]. eauto.
        + cbn [world pending app chat messages log isLoading].
          split.
          * rewrite networkCalls_app, userMessages_app, Hcalls. reflexivity.
          * split; [reflexivity|]. eexists tail, _. rewrite Hms.
            split; [reflexivity|]. split; [exact Hex|]. split; reflexivity.
      - destruct Hshape as (Hload & Hrest). rewrite Hload, orb_true_r.
        cbn [world pending]. split; [exact Hcalls|]. split; [exact Hload | exact Hrest]. }
    destruct ev as [value|sent|e sent|n up replied]; cbn [dispatch world pending].
    + unfold inputDisabled.
      destruct (isLoading (chat w)) eqn:Hload; cbn [world pending].
      * rewrite ?Hload. split; [exact Hcalls | exact Hshape].
      * cbn [setInputValue snd chat messages log isLoading].
        rewrite ?Hload. split; [exact Hcalls | exact Hshape].
    + apply Hstart.
    + destruct (bool_decide (key e = utf16 "Enter") && negb (shiftKey e)).
      * apply Hstart.
      * cbn [world pending]. split; [exact Hcalls | exact Hshape].
    + destruct pend as [|input [|? ?]]; [| |contradiction].
      * rewrite lookup_nil. cbn [world pending]. split; [exact Hcalls | exact Hshape].
      * destruct n as [|n].
        -- cbn [lookup list_lookup delete list_delete world pending].
           destruct (sendSettle_run up replied input w)
             as (c & more & Hrun & Hmore & _).
           rewrite Hrun. cbn [snd chat messages log isLoading].
           destruct Hshape as (Hload & answered & user & Hms & Hex & Huser & _).
           split.
           ++ rewrite networkCalls_app, userMessages_app, Hmore, Hcalls.
              unfold userMessages. cbn [List.filter isBot negb length]. lia.
           ++ split; [reflexivity|].
              exists (answered ++ [user; {| id := toString (now replied + 1);
                                            content := c; isBot := true;
                                            timestamp := date replied |}]).
              rewrite Hms. split.
              ** cbn [app]. rewrite <- app_assoc. reflexivity.
              ** apply exchanges_snoc; [exact Hex | exact Huser | reflexivity].
        -- cbn [lookup list_lookup]. rewrite ?lookup_nil. cbn [world pending].
           split; [exact Hcalls | exact Hshape].
Qed.

(** X8: whatever the user types, clicks and presses, and whenever the
    replies arrive or fail to, at most one call is under way, and the
    loading flag is up exactly while one is; the network calls made are
    as many as the user's messages; and the conversation is the greeting
    followed by exchanges, each a message of the user directly answered
    by one of the bot, and then, while a call is under way, the one
    message of the user that waits for its answer, with the text that was
    sent.  Once every reply has arrived the conversation is the greeting
    followed by exchanges only. *)
Theorem conversation_is_greeting_then_exchanges (mountedAt : N) (wd : Widget) :
  reachable mountedAt wd ->
  (length (pending wd) <= 1)%nat
  /\ isLoading (chat (world wd)) = bool_decide (pending wd <> [])
  /\ networkCalls (log (world wd)) = userMessages (messages (chat (world wd)))
  /\ (exists answered waiting,
        messages (chat (world wd))
        = {| id := utf16 "1"; content := JString greetingText;
             isBot := true; timestamp := mountedAt |} :: answered ++ waiting
        /\ exchanges answered = true
        /\ Forall (fun m => isBot m = false) waiting
        /\ map content waiting = map JString (pending wd)).
Proof.
  intros Hreach.
  destruct (widget_invariant mountedAt wd Hreach) as [Hcalls Hshape].
  destruct (pending wd) as [|input [|? ?]]; [| |contradiction].
  - destruct Hshape as (Hload & tail & Hms & Hex).
    split; [cbn [length]; lia|]. split; [rewrite Hload; reflexivity|].
    split; [exact Hcalls|].
    exists tail, []. rewrite app_nil_r.
    split; [exact Hms|]. split; [exact Hex|].
    split; [constructor | reflexivity].
  - destruct Hshape as (Hload & answered & user & Hms & Hex & Huser & Hcontent).
    split; [cbn [length]; lia|]. split; [rewrite Hload; reflexivity|].
    split; [exact Hcalls|].
    exists answered, [user].
    split; [exact Hms|]. split; [exact Hex|].
    split; [repeat constructor; exact Huser|].
    cbn [map]. rewrite Hcontent. reflexivity.
Qed.

Lemma conversation_is_greeting_then_exchanges_witness :
  isLoading
    (chat (world (dispatch (SendClick {| now := 1000; date := 1000 |})
                    (dispatch (InputChange (utf16 "heaps"))
                       {| world := {| chat := initialState 0; log := [] |};
                          pending := [] |}))))
  = true
  /\ networkCalls
       (log (world (dispatch (Settled 0 Rejects {| now := 1040; date := 1041 |})
                      (dispatch (SendClick {| now := 1000; date := 1000 |})
                         (dispatch (InputChange (utf16 "heaps"))
                            {| world := {| chat := initialState 0; log := [] |};
                               pending := [] |})))))
     = 1%nat.
Proof.
  split.
  - rewrite (proj1 (proj2 (conversation_is_greeting_then_exchanges 0 _
                             (reachable_event 0 _ _
                                (reachable_event 0 _ _ (reachable_mount 0)))))).
    vm_compute. reflexivity.
  - rewrite (proj1 (proj2 (proj2 (conversation_is_greeting_then_exchanges 0 _
                             (reachable_event 0 _ _
                                (reachable_event 0 _ _
                                   (reachable_event 0 _ _ (reachable_mount 0)))))))).
    vm_compute. reflexivity.
Defined.

(** ** Occurrence of keywords *)

Lemma startsWith_spec (s sub : jsstring) :
  startsWith s sub = true <-> exists rest, s = sub ++ rest.
Proof.
  revert s. induction sub as [|c sub IH]; intros s.
  - destruct s; cbn [startsWith]; split; eauto.
  - destruct s as [|d s]; cbn [startsWith].
    + split; [discriminate | intros [rest H]; discriminate].
    + rewrite andb_true_iff, N.eqb_eq, IH. split.
      * intros [-> [rest ->]]. exists rest. reflexivity.
      * intros [rest H]. injection H as -> ->. eauto.
Qed.

Lemma includes_spec (s sub : jsstring) :
  includes s sub = true <-> exists before after, s = before ++ sub ++ after.
Proof.
  induction s as [|d s IH].
  - cbn [includes]. rewrite orb_false_r, startsWith_spec. split.
    + intros [rest H]. exists [], rest. exact H.
    + intros (before & after & H). destruct before as [|x before]; [|discriminate].
      exists after. exact H.
  - cbn [includes]. rewrite orb_true_iff, startsWith_spec, IH. split.
    + intros [[rest H] | (before & after & H)].
      * exists [], rest. exact H.
      * exists (d :: before), after. rewrite H. reflexivity.
    + intros (before & after & H). destruct before as [|x before].
      * left. exists after. exact H.
      * right. injection H as -> ->. eauto.
Qed.

Lemma includes_embed (before s after sub : jsstring) :
  includes s sub = true -> includes (before ++ s ++ after) sub = true.
Proof.
  rewrite !includes_spec. intros (x & y & ->).
  exists (before ++ x), (y ++ after). rewrite <- !app_assoc. reflexivity.
Qed.

Lemma toLowerCase_app (s t : jsstring) :
  toLowerCase (s ++ t) = toLowerCase s ++ toLowerCase t.
Proof. unfold toLowerCase. apply flat_map_app. Qed.

Lemma includes_lower_embed (before s after sub : jsstring) :
  includes (toLowerCase s) sub = true ->
  includes (toLowerCase (before ++ s ++ after)) sub = true.
Proof. rewrite !toLowerCase_app. apply includes_embed. Qed.

Lemma canned_heads :
  map (fun t => (nth 0 t 0, nth 2 t 0)) cannedTexts
  = [(65, 114); (66, 110); (71, 97); (68, 110); (84, 109); (71, 101)].
Proof. vm_compute. reflexivity. Qed.

Ltac differ_by_heads H :=
  let Hh := fresh in
  pose proof canned_heads as Hh; unfold cannedTexts in Hh; cbn [map] in Hh;
  rewrite H in Hh; repeat (injection Hh as ? Hh); discriminate.

(** X9: once a question is taken for an array or sorting question, text
    added before or after it does not change the answer. *)
Theorem array_answer_survives_context (before q after : jsstring) :
  getFallbackResponse q = arrayText ->
  getFallbackResponse (before ++ q ++ after) = arrayText.
Proof.
  intros Hq.
  assert (Hkw : includes (toLowerCase q) (utf16 "array")
                || includes (toLowerCase q) (utf16 "sorting") = true).
  { unfold getFallbackResponse in Hq. cbv zeta in Hq.
    destruct (includes (toLowerCase q) (utf16 "array")
              || includes (toLowerCase q) (utf16 "sorting")); [reflexivity|].
    exfalso.
    repeat match type of Hq with
           | (if ?b then _ else _) = _ => destruct b
           end; symmetry in Hq; differ_by_heads Hq. }
  unfold getFallbackResponse. cbv zeta.
  apply orb_true_iff in Hkw as [Hk | Hk];
    rewrite (includes_lower_embed before q after _ Hk);
    rewrite ?orb_true_r; reflexivity.
Qed.

Lemma array_answer_survives_context_witness :
  getFallbackResponse
    (utf16 "please tell me, " ++ utf16 "how does SORTING work" ++ utf16 " in a binary tree?")
  = arrayText.
Proof.
  apply array_answer_survives_context. vm_compute. reflexivity.
Defined.

(** X10: the generic study tips are the answer exactly when none of the
    eleven keywords occurs in the lower-cased query. *)
Theorem generic_answer_iff_no_keyword (q : jsstring) :
  getFallbackResponse q = defaultText <->
  forallb (fun entry => negb (matches q entry)) topicTable = true.
Proof.
  unfold getFallbackResponse, topicTable, matches. cbv zeta.
  cbn [forallb existsb fst].
  set (lq := toLowerCase q).
  rewrite !orb_false_r, !andb_true_r.
  repeat match goal with
         | |- context [includes lq ?k] => destruct (includes lq k); cbn [orb negb andb]
         end;
    (split; intros H;
     lazymatch type of H with
     | false = true => discriminate H
     | _ => lazymatch goal with
            | |- false = true => differ_by_heads H
            | _ => reflexivity
            end
     end).
Qed.

Lemma generic_answer_iff_no_keyword_witness :
  getFallbackResponse (utf16 "How do heaps work?") = defaultText.
Proof.
  apply generic_answer_iff_no_keyword. vm_compute. reflexivity.
Defined.


(** ** Further properties of the course form *)

Import CourseForm CourseFormView.

(** X11: the warning does not depend on letter case, and a topic that
    raises it keeps raising it when text is typed before or after it. *)
Theorem warning_survives_case_and_context (topic : jsstring) :
  isNonCSE (toLowerCase topic) = isNonCSE topic
  /\ (isNonCSE topic = true ->
      forall before after, isNonCSE (before ++ topic ++ after) = true).
Proof.
  split.
  - unfold isNonCSE. rewrite toLowerCase_idempotent. reflexivity.
  - intros H before after. apply isNonCSE_keyword in H as (kw & Hin & Hkw).
    apply isNonCSE_keyword. exists kw. split; [exact Hin|].
    apply includes_lower_embed. exact Hkw.
Qed.

Lemma warning_survives_case_and_context_witness :
  showNonCSEWarning
    (handleCustomTopicChange
       (utf16 "Intro to " ++ utf16 "Organic CHEMISTRY" ++ utf16 " for coders")
       initialForm) = true.
Proof.
  cbn [handleCustomTopicChange showNonCSEWarning].
  apply (proj2 (warning_survives_case_and_context (utf16 "Organic CHEMISTRY"))).
  vm_compute. reflexivity.
Defined.

(** X12: a chosen subject and a typed topic never coexist: in every state
    the form can reach one of the two is empty, so the course name is the
    one that is not. *)
Theorem subject_and_topic_exclusive (st : FormState) :
  reachable st ->
  (selectedSubject st = [] \/ customTopic st = [])
  /\ (orElse (selectedSubject st) (customTopic st)
      = selectedSubject st ++ customTopic st).
Proof.
  intros Hreach.
  assert (Hex : selectedSubject st = [] \/ customTopic st = []).
  { induction Hreach as [|ev st Hst IH].
    - left. reflexivity.
    - destruct ev; cbn [dispatch fst]; try exact IH.
      + right. reflexivity.
      + left. reflexivity.
      + rewrite handleSubmit_state. exact IH. }
  split; [exact Hex|].
  unfold orElse. destruct Hex as [-> | ->].
  - reflexivity.
  - rewrite app_nil_r. destruct (selectedSubject st); reflexivity.
Qed.

Lemma subject_and_topic_exclusive_witness :
  customTopic (fst (dispatch (SubjectClick (utf16 "Operating Systems"))
                     (fst (dispatch (CustomTopicInput (utf16 "Rust")) initialForm))))
  = [].
Proof.
  destruct (subject_and_topic_exclusive
              (fst (dispatch (SubjectClick (utf16 "Operating Systems"))
                      (fst (dispatch (CustomTopicInput (utf16 "Rust")) initialForm)))))
    as [[H | H] _].
  - apply reachable_step, reachable_step, reachable_init.
  - vm_compute in H. discriminate H.
  - exact H.
Defined.

Lemma cseSubjects_sound :
  forallb (fun s => truthy (trim s) && negb (isNonCSE s)) cseSubjects = true.
Proof. vm_compute. reflexivity. Qed.

Lemma cseSubject_sound (s : jsstring) :
  In s cseSubjects -> truthy (trim s) = true /\ isNonCSE s = false.
Proof.
  intros H. pose proof cseSubjects_sound as Hall.
  rewrite forallb_forall in Hall. specialize (Hall s H).
  apply andb_true_iff in Hall as [H1 H2].
  apply negb_true_iff in H2. auto.
Qed.

(** What the rendered form keeps true. *)
Lemma uiReachable_invariant (st : FormState) :
  uiReachable st ->
  ((selectedSubject st = [] \/ (In (selectedSubject st) cseSubjects /\ customTopic st = []))
   /\ showNonCSEWarning st = isNonCSE (customTopic st))
  /\ In (purpose st) purposeOptions
  /\ In (difficulty st) difficultyOptions.
Proof.
  induction 1 as [|ev st Hst IH Hoff].
  - split; [split; [left; reflexivity | symmetry; exact isNonCSE_empty]|].
    split; vm_compute; auto.
  - destruct IH as ((Hsel & Hwarn) & Hp & Hd).
    destruct ev; cbn [dispatch fst offered] in *.
    + cbn [handleSubjectSelect selectedSubject customTopic showNonCSEWarning
           purpose difficulty].
      split; [split; [right; auto | symmetry; exact isNonCSE_empty] | auto].
    + cbn [handleCustomTopicChange selectedSubject customTopic showNonCSEWarning
           purpose difficulty].
      split; [split; [left; reflexivity | reflexivity] | auto].
    + cbn [setPurpose selectedSubject customTopic showNonCSEWarning purpose difficulty].
      auto.
    + cbn [setDifficulty selectedSubject customTopic showNonCSEWarning purpose difficulty].
      auto.
    + cbn [setIncludeExamPrep selectedSubject customTopic showNonCSEWarning
           purpose difficulty].
      auto.
    + cbn [setCustomPrompt selectedSubject customTopic showNonCSEWarning
           purpose difficulty].
      auto.
    + rewrite handleSubmit_state. auto.
Qed.

Lemma courseName_ready (st : FormState) :
  uiReachable st ->
  truthy (trim (orElse (selectedSubject st) (customTopic st)))
  = truthy (selectedSubject st) || truthy (trim (customTopic st)).
Proof.
  intros Hui. destruct (uiReachable_invariant st Hui) as ((Hsel & _) & _).
  unfold orElse. destruct Hsel as [-> | [Hin ->]].
  - reflexivity.
  - destruct (cseSubject_sound _ Hin) as [Htrim _].
    destruct (selectedSubject st) eqn:E; [discriminate Htrim|].
    cbn [truthy orb]. exact Htrim.
Qed.

(** X13: in the rendered form the validity that enables the submit button
    and the checks of the submit handler agree: [isFormValid] holds
    exactly when a submit calls [onSubmit]. *)
Theorem button_enabled_iff_submit_calls (st : FormState) :
  uiReachable st ->
  isFormValid st = invokesOnSubmit (snd (handleSubmit st))
  /\ submitDisabled st false = negb (invokesOnSubmit (snd (handleSubmit st))).
Proof.
  intros Hui.
  assert (H : isFormValid st = invokesOnSubmit (snd (handleSubmit st))).
  { unfold isFormValid, handleSubmit. cbv zeta.
    rewrite (courseName_ready st Hui).
    destruct (truthy (selectedSubject st) || truthy (trim (customTopic st)));
      [|reflexivity].
    destruct (showNonCSEWarning st); reflexivity. }
  split; [exact H|].
  unfold submitDisabled. rewrite H, orb_false_r. reflexivity.
Qed.

Lemma button_enabled_iff_submit_calls_witness :
  isFormValid (fst (dispatch (SubjectClick (utf16 "Compiler Design")) initialForm))
  = invokesOnSubmit
      (snd (handleSubmit (fst (dispatch (SubjectClick (utf16 "Compiler Design"))
                                        initialForm)))).
Proof.
  apply button_enabled_iff_submit_calls.
  apply uiReachable_step; [apply uiReachable_init|].
  vm_compute. auto 10.
Defined.

(** X14: whatever the user does with the rendered form, [onSubmit] is
    called at most once per submit and only with a course name that is
    not blank and holds no non-CSE keyword, one of the offered purposes,
    one of the offered difficulties, and the prompt and exam flag of the
    state. *)
Theorem submitted_course_is_cse (st : FormState) :
  uiReachable st ->
  forall name p d prompt exam,
    In (OnSubmit name p d prompt exam) (snd (handleSubmit st)) ->
    snd (handleSubmit st) = [PreventDefault; OnSubmit name p d prompt exam]
    /\ blank name = false
    /\ isNonCSE name = false
    /\ In p purposeOptions
    /\ In d difficultyOptions
    /\ prompt = customPrompt st
    /\ exam = includeExamPrep st.
Proof.
  intros Hui name p d prompt exam Hin.
  destruct (uiReachable_invariant st Hui) as ((Hsel & Hwarn) & Hp & Hd).
  unfold handleSubmit in *. cbv zeta in *.
  destruct (truthy (trim (orElse (selectedSubject st) (customTopic st)))) eqn:Htrim;
    cbn [negb] in *.
  2:{ cbn [snd In] in Hin. destruct Hin as [Hin | []]. discriminate Hin. }
  destruct (showNonCSEWarning st) eqn:Hw.
  { cbn [snd In] in Hin. destruct Hin as [Hin | []]. discriminate Hin. }
  cbn [snd In] in Hin. destruct Hin as [Hin | [Hin | []]]; [discriminate Hin|].
  injection Hin as <- <- <- <- <-.
  split; [reflexivity|].
  split; [apply trim_truthy_iff_not_blank; exact Htrim|].
  split; [|auto].
  unfold orElse. destruct Hsel as [Hnil | [Hsub Htopic]].
  - rewrite Hnil. cbn [truthy]. rewrite <- Hwarn. reflexivity.
  - destruct (cseSubject_sound _ Hsub) as [Ht Hn].
    destruct (selectedSubject st) eqn:E; [discriminate Ht|].
    cbn [truthy]. exact Hn.
Qed.

Lemma submitted_course_is_cse_witness :
  isNonCSE (utf16 "Graph databases") = false
  /\ In (utf16 "exam_preparation") purposeOptions.
Proof.
  destruct (submitted_course_is_cse
              (fst (dispatch (CustomTopicInput (utf16 "Graph databases")) initialForm))
              (uiReachable_step (CustomTopicInput (utf16 "Graph databases")) initialForm
                                uiReachable_init I)
              (utf16 "Graph databases") (utf16 "exam_preparation")
              (utf16 "intermediate") [] true)
    as (_ & _ & Hn & Hp & _).
  - vm_compute. auto.
  - split; [exact Hn | exact Hp].
Defined.

(** X15: whether a topic can be submitted right after it was typed
    depends on the topic alone: [onSubmit] is called exactly when the
    topic is not blank and holds no non-CSE keyword, with the topic as
    typed and the options of the state; and a click on a subject that is
    not blank always makes the next submit go through, whatever warning
    was up before. *)
Theorem submit_after_input (st : FormState) (value : jsstring) :
  snd (handleSubmit (handleCustomTopicChange value st))
  = (if negb (blank value) && negb (isNonCSE value)
     then [PreventDefault;
           OnSubmit value (purpose st) (difficulty st) (customPrompt st)
                    (includeExamPrep st)]
     else [PreventDefault])
  /\ snd (handleSubmit (handleSubjectSelect value st))
     = (if negb (blank value)
        then [PreventDefault;
              OnSubmit value (purpose st) (difficulty st) (customPrompt st)
                       (includeExamPrep st)]
        else [PreventDefault]).
Proof.
  unfold handleSubmit, handleCustomTopicChange, handleSubjectSelect, orElse.
  cbv zeta.
  cbn [selectedSubject customTopic showNonCSEWarning purpose difficulty
       customPrompt includeExamPrep truthy].
  split.
  - destruct (blank value) eqn:Hb.
    + apply trim_falsy_iff_blank in Hb. rewrite Hb. reflexivity.
    + apply trim_truthy_iff_not_blank in Hb. rewrite Hb. cbn [negb andb].
      destruct (isNonCSE value); reflexivity.
  - destruct (blank value) eqn:Hb.
    + pose proof Hb as Hb'. apply trim_falsy_iff_blank in Hb'.
      destruct (truthy value); [rewrite Hb'; reflexivity | reflexivity].
    + pose proof Hb as Hb'. apply trim_truthy_iff_not_blank in Hb'.
      destruct value as [|u value]; [discriminate Hb|].
      cbn [truthy]. rewrite Hb'. reflexivity.
Qed.


(** ** The course generator page *)

Ltac run_page :=
  cbv [mbind mret CourseGenerator.P_bind CourseGenerator.P_ret
       CourseGenerator.throw CourseGenerator.tryCatchFinally
       CourseGenerator.generateCourse CourseGenerator.emit
       CourseGenerator.navigate CourseGenerator.setIsLoading
       CourseGenerator.setError CourseGenerator.setGenerationInBackground
       CourseGenerator.setGenerationStartTime CourseGenerator.page
       CourseGenerator.plog CourseGenerator.isLoading CourseGenerator.error
       CourseGenerator.generationInBackground
       CourseGenerator.generationStartTime CourseGenerator.progress
       CourseGenerator.userId].

(** The three runs of the page's submit handler. *)
Lemma page_submit_signed_out
    (env : CourseGenerator.PageEnv) (courseName purpose difficulty : jsstring)
    (w : CourseGenerator.PageWorld) :
  CourseGenerator.user env = None ->
  CourseGenerator.handleSubmit env courseName purpose difficulty w
  = (Normal tt,
     {| CourseGenerator.page := CourseGenerator.page w;
        CourseGenerator.plog :=
          CourseGenerator.plog w ++ [CourseGenerator.Navigate (utf16 "/auth")] |}).
Proof.
  intros Hu. unfold CourseGenerator.handleSubmit. rewrite Hu. reflexivity.
Qed.

Lemma page_submit_resolved
    (env : CourseGenerator.PageEnv) (u : CourseGenerator.User) (courseId : jsstring)
    (courseName purpose difficulty : jsstring) (w : CourseGenerator.PageWorld) :
  CourseGenerator.user env = Some u ->
  CourseGenerator.generation env = inr courseId ->
  CourseGenerator.handleSubmit env courseName purpose difficulty w
  = (Normal tt,
     {| CourseGenerator.page :=
          {| CourseGenerator.isLoading := false;
             CourseGenerator.error := None;
             CourseGenerator.generationInBackground := true;
             CourseGenerator.generationStartTime :=
               Some (CourseGenerator.startedAt env);
             CourseGenerator.progress :=
               CourseGenerator.progress (CourseGenerator.page w) |};
        CourseGenerator.plog :=
          CourseGenerator.plog w
          ++ [ CourseGenerator.GenerateCourse courseName purpose difficulty
                 (CourseGenerator.userId u);
               CourseGenerator.Navigate (utf16 "/course/" ++ courseId) ] |}).
Proof.
  intros Hu Hgen. unfold CourseGenerator.handleSubmit. rewrite Hu.
  destruct w as [[loading err bg start prog] lg].
  run_page. rewrite Hgen. run_page. rewrite <- app_assoc. reflexivity.
Qed.

Lemma page_submit_rejected
    (env : CourseGenerator.PageEnv) (u : CourseGenerator.User) (e : JsError)
    (courseName purpose difficulty : jsstring) (w : CourseGenerator.PageWorld) :
  CourseGenerator.user env = Some u ->
  CourseGenerator.generation env = inl e ->
  CourseGenerator.handleSubmit env courseName purpose difficulty w
  = (Normal tt,
     {| CourseGenerator.page :=
          {| CourseGenerator.isLoading := false;
             CourseGenerator.error :=
               Some (utf16 "Failed to generate course. Please try again.");
             CourseGenerator.generationInBackground :=
               CourseGenerator.generationInBackground (CourseGenerator.page w);
             CourseGenerator.generationStartTime :=
               CourseGenerator.generationStartTime (CourseGenerator.page w);
             CourseGenerator.progress :=
               CourseGenerator.progress (CourseGenerator.page w) |};
        CourseGenerator.plog :=
          CourseGenerator.plog w
          ++ [ CourseGenerator.GenerateCourse courseName purpose difficulty
                 (CourseGenerator.userId u);
               CourseGenerator.ConsoleError (utf16 "Course generation failed:") e;
               CourseGenerator.Toast
                 (utf16 "Error")
                 (utf16 "Failed to generate course. Please try again.")
                 (utf16 "destructive") ] |}).
Proof.
  intros Hu Hgen. unfold CourseGenerator.handleSubmit. rewrite Hu.
  destruct w as [[loading err bg start prog] lg].
  run_page. rewrite Hgen. run_page. rewrite <- !app_assoc. reflexivity.
Qed.

Ltac page_cases env courseName purpose difficulty w :=
  let u := fresh "u" in
  let Hu := fresh "Hu" in
  let r := fresh "r" in
  let Hgen := fresh "Hgen" in
  destruct (CourseGenerator.user env) as [u|] eqn:Hu;
  [ destruct (CourseGenerator.generation env) as [r|r] eqn:Hgen;
    [ rewrite (page_submit_rejected env u r courseName purpose difficulty w Hu Hgen)
    | rewrite (page_submit_resolved env u r courseName purpose difficulty w Hu Hgen) ]
  | rewrite (page_submit_signed_out env courseName purpose difficulty w Hu) ].

(** X16: whatever the service does, the page's submit handler completes
    without throwing; for a signed-in user the loading flag is down at
    the end, and the service was asked exactly once, with the values of
    the form and the id of the user; without a user the service is not
    asked and no state cell changes. *)
Theorem page_submit_settles
    (env : CourseGenerator.PageEnv) (courseName purpose difficulty : jsstring)
    (w : CourseGenerator.PageWorld) :
  let r := CourseGenerator.handleSubmit env courseName purpose difficulty w in
  fst r = Normal tt
  /\ match CourseGenerator.user env with
     | Some u =>
         CourseGenerator.isLoading (CourseGenerator.page (snd r)) = false
         /\ exists more,
              drop (length (CourseGenerator.plog w)) (CourseGenerator.plog (snd r))
              = CourseGenerator.GenerateCourse courseName purpose difficulty
                  (CourseGenerator.userId u) :: more
              /\ CourseGenerator.generations more = 0%nat
     | None =>
         CourseGenerator.page (snd r) = CourseGenerator.page w
         /\ CourseGenerator.generations (CourseGenerator.plog (snd r))
            = CourseGenerator.generations (CourseGenerator.plog w)
     end.
Proof.
  cbv zeta.
  page_cases env courseName purpose difficulty w;
    cbn [fst snd CourseGenerator.page CourseGenerator.plog CourseGenerator.isLoading];
    (split; [reflexivity|]).
  - split; [reflexivity|]. rewrite drop_app_length. eexists. split; reflexivity.
  - split; [reflexivity|]. rewrite drop_app_length. eexists. split; reflexivity.
  - split; [reflexivity|].
    unfold CourseGenerator.generations.
    rewrite List.filter_app, length_app. cbn [List.filter length]. lia.
Qed.

(** X17: the page navigates to the sign-in route when nobody is signed
    in, to the page of the new course when the generation succeeded, and
    nowhere when it failed; only a success marks the generation as
    running in the background, since the time it resolved. *)
Theorem page_submit_navigation
    (env : CourseGenerator.PageEnv) (courseName purpose difficulty : jsstring)
    (w : CourseGenerator.PageWorld) :
  let w' := snd (CourseGenerator.handleSubmit env courseName purpose difficulty w) in
  CourseGenerator.navigations (CourseGenerator.plog w')
  = CourseGenerator.navigations (CourseGenerator.plog w)
    ++ match CourseGenerator.user env, CourseGenerator.generation env with
       | None, _ => [utf16 "/auth"]
       | Some _, inr courseId => [utf16 "/course/" ++ courseId]
       | Some _, inl _ => []
       end
  /\ (CourseGenerator.generationInBackground (CourseGenerator.page w'),
      CourseGenerator.generationStartTime (CourseGenerator.page w'))
     = match CourseGenerator.user env, CourseGenerator.generation env with
       | Some _, inr _ => (true, Some (CourseGenerator.startedAt env))
       | _, _ => (CourseGenerator.generationInBackground (CourseGenerator.page w),
                  CourseGenerator.generationStartTime (CourseGenerator.page w))
       end.
Proof.
  cbv zeta.
  page_cases env courseName purpose difficulty w;
    cbn [snd CourseGenerator.page CourseGenerator.plog
         CourseGenerator.generationInBackground CourseGenerator.generationStartTime];
    unfold CourseGenerator.navigations; rewrite flat_map_app;
    (split; reflexivity).
Qed.

(** X18: the error text of the page is cleared by a submit that succeeds,
    set by one that fails, which is also the only case with a toast and a
    console error, and left alone when nobody is signed in. *)
Theorem page_submit_error_report
    (env : CourseGenerator.PageEnv) (courseName purpose difficulty : jsstring)
    (w : CourseGenerator.PageWorld) :
  let w' := snd (CourseGenerator.handleSubmit env courseName purpose difficulty w) in
  let said := drop (length (CourseGenerator.plog w)) (CourseGenerator.plog w') in
  match CourseGenerator.user env, CourseGenerator.generation env with
  | Some u, inl e =>
      CourseGenerator.error (CourseGenerator.page w')
      = Some (utf16 "Failed to generate course. Please try again.")
      /\ said = [ CourseGenerator.GenerateCourse courseName purpose difficulty
                    (CourseGenerator.userId u);
                  CourseGenerator.ConsoleError (utf16 "Course generation failed:") e;
                  CourseGenerator.Toast
                    (utf16 "Error")
                    (utf16 "Failed to generate course. Please try again.")
                    (utf16 "destructive") ]
  | Some u, inr courseId =>
      CourseGenerator.error (CourseGenerator.page w') = None
      /\ said = [ CourseGenerator.GenerateCourse courseName purpose difficulty
                    (CourseGenerator.userId u);
                  CourseGenerator.Navigate (utf16 "/course/" ++ courseId) ]
  | None, _ =>
      CourseGenerator.error (CourseGenerator.page w')
      = CourseGenerator.error (CourseGenerator.page w)
      /\ said = [CourseGenerator.Navigate (utf16 "/auth")]
  end.
Proof.
  cbv zeta.
  page_cases env courseName purpose difficulty w;
    cbn [snd CourseGenerator.page CourseGenerator.plog CourseGenerator.error];
    rewrite drop_app_length; split; reflexivity.
Qed.
